(* ===== verification/_CoqProject ===== *)
-Q . S2P
Prelude.v
Binary64.v
Struct.v
BytesIO.v
WaveWrite.v
PcmToWav.v
Chunk.v
WaveRead.v
Validator.v
Gateway.v
Handler.v
Refinement.v
