(* ===== verification/Prelude.v ===== *)
(** * SpeechFlow STT engine: a verification development

    The program (src/stt-engine/) is an HTTP service with two near-duplicate
    front ends, gstt_flask.py and gstt_fastapi_rest.py.  Each has a
    handler [speech_to_text] that takes the request body as raw mono 16-bit
    little-endian PCM and runs one pipeline on it:
    - the empty check;
    - [pcm_to_wav]: the PCM decoder (line 26/27, [struct.unpack] then
      [struct.pack] of the samples) and the WAV encoder ([wave.open(.., 'wb')]
      on an [io.BytesIO], mono, 2 bytes, 48000 Hz, [writeframes], close);
    - [debug_wav_info]: the validator reopens the same BytesIO with
      [wave.open(.., 'rb')] and computes [frames / float(framerate)]; the
      handler refuses audio shorter than 0.3 s;
    - [wav_file.seek(0)], then [sr.AudioFile] and [Recognizer.record], which
      read the frames back into an [AudioData];
    - one call [recognize_google(audio, language='ko-KR')] to the external
      service, whose text is the answer.
    The Flask handler returns a JSON body and a status at each failure; the
    FastAPI handler raises [HTTPException]s inside a [try] whose
    [except Exception] re-raises every exception as a 500.

    ** Files and what they model

    - Prelude.v (this file): Python exceptions as one inductive type
      [py_exc] (with the messages built from them), results [pyres] with
      [Ok]/[Exc], the state-and-exception monad [PyM S A = S -> pyres A * S]
      with its notations in [py_scope] ([let*], [let!], [;;]) and [stry] for
      try/except; bytes as [list byte] and the little-endian codecs
      [le_bytes]/[le_value] with their lemmas (hint databases [pyenc],
      [pyenc_rw]).  The state survives an exception, as in Python.
    - Binary64.v, [Module Binary64]: Python's [a / float(b)] on integers,
      [py_truediv], as the binary64 quotient [fl_div] (the exact ratio
      rounded to 53 bits, to nearest, ties to even) kept as a rational.
    - Struct.v, [Module PyStruct]: [struct.pack], [unpack], [unpack_from],
      [calcsize] for the formats h, H, L, 4s with their range checks, and
      [pcm_int16], the conversion of line 26/27.
    - BytesIO.v, [Module BytesIO]: the buffer and its position; [write],
      [read], [tell], [seek], [getbuffer().nbytes].  One BytesIO value is
      threaded through every stage, so the position one stage leaves is
      the one the next stage starts from.
    - WaveWrite.v, [Module WaveWrite]: CPython 3.11 [wave.Wave_write] as a
      record of its fields paired with the BytesIO: the setters and their
      guards, [_write_header], [_ensure_header_written], [writeframesraw],
      [writeframes], [_patchheader], [close], and the [with] statement
      [with_close] (close always runs; its exception replaces the body's).
    - PcmToWav.v, [Module PcmToWav]: [pcm_to_wav] as written, its inner and
      outer [except] clauses included.
    - Chunk.v, [Module Chunk]: [wave._Chunk] over any file-like object,
      the class [PyFile] with instances for the BytesIO and for a chunk
      (sub-chunks read from the RIFF chunk as in wave).
    - WaveRead.v, [Module WaveRead]: [Wave_read.initfp] with its chunk loop,
      [_read_fmt_chunk], the getters and [readframes].
    - Validator.v, [Module Validator]: [debug_wav_info] and [duration < 0.3]
      on the binary64 duration and the binary64 literal 0.3.
    - Gateway.v, [Module Gateway]: [sr.AudioFile.__enter__] on a WAV
      source, [Recognizer.record] and its read loop, [audioop.tomono], and
      the recognizer as the class [SttProvider].
    - Handler.v, [Module Handler]: both [speech_to_text] handlers, each
      returning its response and the list of recognizer calls it made.
    - Refinement.v, [Module Refinement]: the contract of the specification
      (the error taxonomy of its section 7 and the pipeline of its section
      4) and the refinement theorems.

    ** Theorems (claim ids C1 to C17)

    - Refinement: the Flask handler refines the contract on every body and
      provider (C1); the FastAPI handler answers every failure with 500
      (C2), which the specification and the Flask twin answer with 400.
    - Handler paths: too short (C3), no speech (C4), provider unavailable
      (C5), with their messages; the two front ends make the same calls
      (C15) and agree on success (C16).
    - Round trips through the libraries: record after encode gives back the
      received bytes (C6); the reader recovers the header the writer wrote
      (C7); [struct] pack/unpack of 16-bit samples (C12).
    - [pcm_to_wav] on every input (C8) and with a bad rate (C9); the
      conversion of line 26 is the identity or [struct.error] (C10);
      decoded samples are in range (C11).
    - Durations: [debug_wav_info] reports the binary64 [frames / rate]
      (C13); at 48000 Hz the check [duration < 0.3] rejects exactly the
      audio below 14400 frames, 14400 / 48000.0 being exactly the float 0.3
      (C14); [py_truediv] is correctly rounded, within a relative 2^-53 of
      the exact quotient (C17).

    ** Bounds and fuel

    The two [while] loops of the libraries are fixpoints on fuel: the chunk
    loop of [initfp] gets [S (length buffer)] iterations and the read loop
    of [record] the same; each iteration that continues consumes at least
    one byte of the buffer, so that much fuel is never exhausted on the
    buffers of the theorems, and the theorems state that the loops return
    (the round trips C6 and C7 are equations, not partial correctness).
    Out of fuel, the chunk loop raises 'chunks missing' and the read loop
    returns the frames read so far; no theorem reaches either case.
    Integers are [Z] with the [struct] range checks written out: the 32-bit
    RIFF and data sizes overflow for bodies of 2^32 - 36 bytes or more, and
    C8 states what then happens.  Durations are binary64 values held as
    exact rationals [Q]: frame counts and rates are below 2^32, so
    [float()] is exact on them and the quotient, between 2^-32 and 2^32,
    is a normal float; [fl_div] rounds it as IEEE 754 does, and the
    literal 0.3 is its binary64 value.

    ** Not modelled

    The external recognition service (an arbitrary [SttProvider]: any
    answer for any audio), the FLAC encoding and HTTP request inside
    [recognize_google], the prints and tracebacks (output only), the JSON
    byte encoding (the body is modelled as its structure), the framework
    glue (routing, [request.data], [await request.body()], app startup),
    the commented-out [save_debug_wav], and the paths of [wave] and
    [speech_recognition] the code never reaches: the AIFF and FLAC
    fallbacks of [AudioFile] (taken to fail; the handlers always open the
    WAV they wrote, rewound to 0), 24-bit widening, [setpos].  The
    byte swapping of [writeframesraw] on big-endian hosts is omitted.

    ** Further work

    A fuel-independence theorem for the chunk loop on every buffer; the
    read loop of [record] on stereo input through [tomono]; [_patchheader]
    on a writer whose frame count was not known in advance. *)

From Stdlib Require Import ZArith QArith String Strings.Byte.
From stdpp Require Import base list decidable.

(** ** Python exceptions raised along the pipeline

    The source relies on Python's exception mechanism: [struct.error],
    [wave.Error], [EOFError], [ValueError] built from the message of an
    inner exception, FastAPI's [HTTPException], and the two exceptions of
    [speech_recognition].  They are one mutual inductive type so that a
    message can carry the exception it was formatted from ([str(e)]). *)

Inductive wave_error : Type :=
  (* Wave_write setters and _ensure_header_written *)
  | WBadNChannels | WBadSampWidth | WBadFrameRate | WParamsAfterWrite
  | WNChannelsNotSpecified | WSampWidthNotSpecified | WFrameRateNotSpecified
  (* Wave_read.initfp and _read_fmt_chunk *)
  | WNotRiff | WNotWave | WDataBeforeFmt | WChunksMissing
  | WUnknownFormat (tag : Z) | WBadSampleWidth | WBadNumChannels.

Inductive py_exc : Type :=
  | StructError                      (* struct.error *)
  | WaveError (w : wave_error)       (* wave.Error *)
  | EOFError
  | RuntimeError                     (* _Chunk.seek out of the chunk *)
  | ZeroDivisionError
  | AssertionError                   (* a failed [assert] *)
  | AttributeError                   (* an attribute of None, e.g. a closed wave file *)
  | AudioopError                     (* audioop.error *)
  | ValueError (m : value_msg)
  | SrUnknownValueError              (* speech_recognition.UnknownValueError *)
  | SrRequestError (details : string) (* speech_recognition.RequestError *)
  | HTTPException (status : Z) (detail : http_detail)
with value_msg : Type :=
  | NoPcmData                        (* '[ERROR] PCM 데이터가 없습니다.' *)
  | PcmConversionFailed (e : py_exc) (* f'[ERROR] PCM 데이터 변환 실패: {e}' *)
  | WavConversionFailed (e : py_exc) (* f'[ERROR] WAV 변환 중 오류 발생: {e}' *)
  | AudioFileUnreadable              (* AudioFile: not WAV, AIFF nor FLAC *)
  | NegativeSeekValue                (* BytesIO.seek: 'negative seek value' *)
with http_detail : Type :=
  | DMsg (m : err_msg)               (* a single message *)
  | DErr (m : err_msg) (d : details) (* {"error": m, "details": d} *)
with err_msg : Type :=
  | MsgNoAudio                       (* '요청된 오디오 데이터가 없습니다.' *)
  | MsgOfExc (e : py_exc)            (* str(e) *)
  | MsgTooShort (duration : Q)       (* f'오디오가 너무 짧음 ({duration:.2f}s)' *)
  | MsgNoSpeech                      (* 'Google STT가 음성을 인식하지 못함' *)
  | MsgSttServer                     (* 'Google STT 서버 오류' *)
  | MsgInternal                      (* '서버 내부 오류' *)
with details : Type :=
  | DetStr (s : string)              (* str(e) of a provider error *)
  | DetExc (e : py_exc).             (* str(e) of any other exception *)

(** ** Results and the state-and-exception monad *)

Inductive pyres (A : Type) : Type :=
  | Ok (a : A)
  | Exc (e : py_exc).
Arguments Ok {A} a.
Arguments Exc {A} e.

Definition pbind {A B} (c : pyres A) (k : A -> pyres B) : pyres B :=
  match c with Ok a => k a | Exc e => Exc e end.

(** A statement that mutates an object threads it; an exception leaves the
    mutations done before it in place, as Python does. *)
Definition PyM (S A : Type) : Type := S -> pyres A * S.

Definition sret {S A} (a : A) : PyM S A := fun s => (Ok a, s).
Definition sraise {S A} (e : py_exc) : PyM S A := fun s => (Exc e, s).
Definition sbind {S A B} (c : PyM S A) (k : A -> PyM S B) : PyM S B :=
  fun s => match c s with
           | (Ok a, s') => k a s'
           | (Exc e, s') => (Exc e, s')
           end.
Definition slift {S A} (r : pyres A) : PyM S A := fun s => (r, s).
Definition sget {S} : PyM S S := fun s => (Ok s, s).
Definition sput {S} (s : S) : PyM S unit := fun _ => (Ok tt, s).
(** [try c except: h]: the handler sees the exception and the state at the
    point where it was raised. *)
Definition stry {S A} (c : PyM S A) (h : py_exc -> PyM S A) : PyM S A :=
  fun s => match c s with
           | (Ok a, s') => (Ok a, s')
           | (Exc e, s') => h e s'
           end.

(** Python's [a // b] on integers: floor division. *)
Definition py_floordiv (a b : Z) : pyres Z :=
  if (b =? 0)%Z then Exc ZeroDivisionError else Ok (a / b)%Z.

Declare Scope py_scope.
Delimit Scope py_scope with py.
Notation "'let*' x ':=' c 'in' k" := (pbind c (fun x => k))
  (at level 10, x name, c at level 100, k at level 200) : py_scope.
Notation "'let!' x ':=' c 'in' k" := (sbind c (fun x => k))
  (at level 10, x name, c at level 100, k at level 200) : py_scope.
Notation "c ;; k" := (sbind c (fun _ => k))
  (at level 100, right associativity) : py_scope.
Open Scope py_scope.

(** ** Bytes and little-endian integers *)

Abbreviation bytes := (list byte).

Definition u8 (b : byte) : Z := Z.of_N (Byte.to_N b).

Definition byte_of_Z (z : Z) : byte :=
  match Byte.of_N (Z.to_N (z mod 256)) with Some b => b | None => Byte.x00 end.

(** The [n] low bytes of [z], least significant first (struct's '<'). *)
Fixpoint le_bytes (n : nat) (z : Z) : bytes :=
  match n with
  | O => []
  | S n' => byte_of_Z z :: le_bytes n' (z / 256)
  end.

(** The unsigned value of a little-endian byte string. *)
Fixpoint le_value (bs : bytes) : Z :=
  match bs with
  | [] => 0
  | b :: bs' => u8 b + 256 * le_value bs'
  end.

#[export] Instance byte_eq_decision : EqDecision byte := Byte.byte_eq_dec.

Section MonadLemmas.
Context {S A B : Type}.

Lemma sbind_ok (c : PyM S A) (k : A -> PyM S B) (s s' : S) (a : A) :
  c s = (Ok a, s') -> sbind c k s = k a s'.
Proof. intros H. unfold sbind. rewrite H. reflexivity. Qed.

Lemma sbind_exc (c : PyM S A) (k : A -> PyM S B) (s s' : S) (e : py_exc) :
  c s = (Exc e, s') -> sbind c k s = (Exc e, s').
Proof. intros H. unfold sbind. rewrite H. reflexivity. Qed.

Lemma stry_ok (c : PyM S A) (h : py_exc -> PyM S A) (s s' : S) (a : A) :
  c s = (Ok a, s') -> stry c h s = (Ok a, s').
Proof. intros H. unfold stry. rewrite H. reflexivity. Qed.

Lemma stry_exc (c : PyM S A) (h : py_exc -> PyM S A) (s s' : S) (e : py_exc) :
  c s = (Exc e, s') -> stry c h s = h e s'.
Proof. intros H. unfold stry. rewrite H. reflexivity. Qed.
End MonadLemmas.

(** Run a monadic program one statement at a time: [py_step L] rewrites the
    first bind with the step lemma [L]. *)
Ltac py_step L :=
  first [ erewrite sbind_ok by (apply L; (assumption || lia || reflexivity))
        | erewrite sbind_exc by (apply L; (assumption || lia || reflexivity)) ].

(** Case analysis on every boolean test of the goal, outermost first: the
    checks of a handler, in the order the code makes them. *)
Ltac destruct_ifs :=
  repeat match goal with |- context [if ?b then _ else _] => destruct b end.

Create HintDb pyenc discriminated.
Create Rewrite HintDb pyenc_rw.

Section ByteLemmas.
Local Open Scope Z_scope.

Lemma u8_range (b : byte) : 0 <= u8 b < 256.
Proof.
  unfold u8. pose proof (Byte.to_N_bounded b). lia.
Qed.

Lemma u8_byte_of_Z (z : Z) : u8 (byte_of_Z z) = z mod 256.
Proof.
  unfold u8, byte_of_Z.
  pose proof (Z.mod_pos_bound z 256 ltac:(lia)) as Hr.
  destruct (Byte.of_N (Z.to_N (z mod 256))) as [b|] eqn:E.
  - apply Byte.to_of_N in E. rewrite E. lia.
  - apply Byte.of_N_None_iff in E. lia.
Qed.

Lemma u8_inj (b1 b2 : byte) : u8 b1 = u8 b2 -> b1 = b2.
Proof.
  unfold u8. intros H. apply N2Z.inj in H.
  pose proof (Byte.of_to_N b1). pose proof (Byte.of_to_N b2). congruence.
Qed.

Lemma byte_of_Z_u8 (b : byte) : byte_of_Z (u8 b) = b.
Proof.
  apply u8_inj. rewrite u8_byte_of_Z. apply Z.mod_small, u8_range.
Qed.

Lemma byte_of_Z_mod (z : Z) : byte_of_Z (z mod 256) = byte_of_Z z.
Proof. apply u8_inj. rewrite !u8_byte_of_Z. apply Z.mod_mod. lia. Qed.

Lemma length_le_bytes (n : nat) (z : Z) : length (le_bytes n z) = n.
Proof. revert z; induction n; simpl; auto. Qed.

Lemma le_value_bytes (n : nat) (z : Z) :
  le_value (le_bytes n z) = z mod 2 ^ (8 * Z.of_nat n).
Proof.
  revert z; induction n as [|n IH]; intros z; simpl le_value.
  - rewrite Z.mod_1_r. reflexivity.
  - rewrite IH, u8_byte_of_Z.
    replace (8 * Z.of_nat (S n)) with (8 + 8 * Z.of_nat n) by lia.
    rewrite Z.pow_add_r by lia.
    rewrite Z.rem_mul_r by (try apply Z.pow_pos_nonneg; lia).
    reflexivity.
Qed.

Lemma le_value_range (bs : bytes) : 0 <= le_value bs < 2 ^ (8 * Z.of_nat (length bs)).
Proof.
  induction bs as [|b bs IH]; simpl le_value; simpl length.
  - simpl. lia.
  - pose proof (u8_range b).
    replace (8 * Z.of_nat (S (length bs))) with (8 + 8 * Z.of_nat (length bs)) by lia.
    rewrite Z.pow_add_r by lia. lia.
Qed.

Lemma le_bytes_value (bs : bytes) : le_bytes (length bs) (le_value bs) = bs.
Proof.
  induction bs as [|b bs IH]; simpl; [reflexivity|].
  pose proof (u8_range b). pose proof (le_value_range bs).
  f_equal.
  - rewrite <- byte_of_Z_mod.
    replace ((u8 b + 256 * le_value bs) mod 256) with (u8 b)
      by (rewrite (Z.mul_comm 256), Z.mod_add, Z.mod_small; lia).
    apply byte_of_Z_u8.
  - replace ((u8 b + 256 * le_value bs) / 256) with (le_value bs)
      by (rewrite (Z.mul_comm 256), Z.div_add, Z.div_small; lia).
    exact IH.
Qed.

Lemma le_bytes_value' (n : nat) (bs : bytes) :
  length bs = n -> le_bytes n (le_value bs) = bs.
Proof. intros <-. apply le_bytes_value. Qed.

Lemma le_value_bytes_small (n : nat) (z : Z) :
  0 <= z < 2 ^ (8 * Z.of_nat n) -> le_value (le_bytes n z) = z.
Proof. intros H. rewrite le_value_bytes. apply Z.mod_small, H. Qed.

Lemma le_value_app (bs1 bs2 : bytes) :
  le_value (bs1 ++ bs2) = le_value bs1 + 2 ^ (8 * Z.of_nat (length bs1)) * le_value bs2.
Proof.
  induction bs1 as [|b bs1 IH]; simpl.
  - lia.
  - rewrite IH.
    replace (8 * Z.of_nat (S (length bs1))) with (8 + 8 * Z.of_nat (length bs1)) by lia.
    rewrite Z.pow_add_r by lia. lia.
Qed.
Lemma le_value_inj (bs1 bs2 : bytes) :
  length bs1 = length bs2 -> le_value bs1 = le_value bs2 -> bs1 = bs2.
Proof.
  intros Hl Hv. rewrite <- (le_bytes_value bs1), <- (le_bytes_value bs2), Hl, Hv.
  reflexivity.
Qed.

Lemma le_bytes_mod (n : nat) (z : Z) :
  le_bytes n (z mod 2 ^ (8 * Z.of_nat n)) = le_bytes n z.
Proof.
  apply le_value_inj; [rewrite !length_le_bytes; reflexivity|].
  rewrite !le_value_bytes. apply Z.mod_mod.
  apply Z.pow_nonzero; lia.
Qed.
(** The two widths of the WAV header, as explicit lists. *)
Lemma le_bytes_2 (z : Z) : le_bytes 2 z = [byte_of_Z z; byte_of_Z (z / 256)].
Proof. reflexivity. Qed.

Lemma le_bytes_4 (z : Z) :
  le_bytes 4 z = [byte_of_Z z; byte_of_Z (z / 256); byte_of_Z (z / 256 / 256);
                  byte_of_Z (z / 256 / 256 / 256)].
Proof. reflexivity. Qed.

Lemma le_value_2 (z : Z) : le_value [byte_of_Z z; byte_of_Z (z / 256)] = z mod 65536.
Proof. rewrite <- le_bytes_2, le_value_bytes. reflexivity. Qed.

Lemma le_value_4 (z : Z) :
  le_value [byte_of_Z z; byte_of_Z (z / 256); byte_of_Z (z / 256 / 256);
            byte_of_Z (z / 256 / 256 / 256)] = z mod 4294967296.
Proof. rewrite <- le_bytes_4, le_value_bytes. reflexivity. Qed.
End ByteLemmas.

Lemma nat_even_of_Z (n : nat) : (Z.of_nat n mod 2 = 0)%Z -> Nat.even n = true.
Proof.
  intros H. apply Nat.even_spec. exists (n / 2).
  change 2%Z with (Z.of_nat 2) in H. rewrite <- Nat2Z.inj_mod in H.
  pose proof (Nat.div_mod_eq n 2). lia.
Qed.

(** The codecs are handled through the lemmas above, not by unfolding. *)
Arguments le_bytes : simpl never.
Arguments le_value : simpl never.

#[export] Hint Rewrite length_le_bytes u8_byte_of_Z byte_of_Z_u8 le_bytes_value : pyenc_rw.
#[export] Hint Resolve u8_range le_value_range : pyenc.
