(* ===== verification/Binary64.v ===== *)
(** * Python's true division of integers as a binary64 quotient.

    [debug_wav_info] computes [frames / float(framerate)].  Both operands
    are integers below 2^32 (they come from 16- and 32-bit header fields),
    so [float()] and the implicit conversion of [frames] are exact, and the
    result is the IEEE 754 binary64 quotient: the exact ratio rounded to 53
    significant bits, to nearest, ties to even.  The quotient of two such
    integers lies between 2^-32 and 2^32, far from the subnormal and
    overflow ranges, so only the normal-range rounding is written out.

    [fl_div a b] is that rounded value as an exact rational: the ratio is
    scaled by [2^-e] so that it lies in [2^52, 2^53), rounded to an integer
    significand [m], and the value is [m * 2^e].  The theorems bound the
    relative error by the unit roundoff [2^-53]. *)

From Stdlib Require Import ZArith QArith Lia.
From stdpp Require Import base.
From S2P Require Import Prelude.

Module Binary64.

(** [a / b] scaled by [2^-e], as a numerator and a denominator. *)
Definition scale (a b e : Z) : Z * Z :=
  if (0 <=? e)%Z then (a, b * 2 ^ e)%Z else (a * 2 ^ (- e), b)%Z.

(** The exponent of the last significand bit of [a / b] ([a, b > 0]):
    the scaled ratio lies in [2^52, 2^53). *)
Definition b64_exp (a b : Z) : Z :=
  let e0 := (Z.log2 a - Z.log2 b - 52)%Z in
  if (fst (scale a b e0) <? 2 ^ 52 * snd (scale a b e0))%Z then (e0 - 1)%Z else e0.

(** [n / d] rounded to the nearest integer, ties to even. *)
Definition round_ne (n d : Z) : Z :=
  let m := (n / d)%Z in
  let r := (n mod d)%Z in
  if (2 * r <? d)%Z then m
  else if (d <? 2 * r)%Z then (m + 1)%Z
  else if Z.even m then m else (m + 1)%Z.

(** The rational [m * 2^e]. *)
Definition fl_value (m e : Z) : Q :=
  if (0 <=? e)%Z then (m * 2 ^ e) # 1 else m # Z.to_pos (2 ^ (- e)).

(** The binary64 quotient of positive integers. *)
Definition fl_div_pos (a b : Z) : Q :=
  let e := b64_exp a b in
  fl_value (round_ne (fst (scale a b e)) (snd (scale a b e))) e.

(** The binary64 quotient of integers, [b <> 0]: rounding to nearest is
    symmetric, so the sign is applied to the quotient of the magnitudes. *)
Definition fl_div (a b : Z) : Q :=
  if (a =? 0)%Z then 0%Q
  else if (Z.sgn a * Z.sgn b <? 0)%Z then (- fl_div_pos (Z.abs a) (Z.abs b))%Q
  else fl_div_pos (Z.abs a) (Z.abs b).

(** Python's [a / float(b)] on integers below 2^53 in magnitude. *)
Definition py_truediv (a b : Z) : pyres Q :=
  if (b =? 0)%Z then Exc ZeroDivisionError else Ok (fl_div a b).

(** [2^53]; the unit roundoff is [u = 2^-53]. *)
Definition U : Z := 9007199254740992.
Definition u : Q := 1 # 9007199254740992.

(** ** Lemmas *)

Section Rounding.
Local Open Scope Z_scope.

Lemma round_ne_bound (n d : Z) :
  0 < d -> 2 * n - d <= 2 * (round_ne n d * d) <= 2 * n + d.
Proof.
  intros Hd. unfold round_ne.
  pose proof (Z.div_mod n d ltac:(lia)) as Hm. pose proof (Z.mod_pos_bound n d Hd) as Hr.
  set (m := n / d) in *. set (r := n mod d) in *.
  destruct (Z.ltb_spec (2 * r) d); [nia|].
  destruct (Z.ltb_spec d (2 * r)); [nia|].
  destruct (Z.even m); nia.
Qed.

Lemma scale_pos (a b e : Z) :
  0 < a -> 0 < b -> 0 < fst (scale a b e) /\ 0 < snd (scale a b e).
Proof.
  intros Ha Hb. unfold scale. destruct (Z.leb_spec 0 e); cbn [fst snd].
  - pose proof (Z.pow_pos_nonneg 2 e ltac:(lia) ltac:(lia)). nia.
  - pose proof (Z.pow_pos_nonneg 2 (- e) ltac:(lia) ltac:(lia)). nia.
Qed.

(** Lowering the exponent by one doubles the scaled ratio. *)
Lemma scale_pred (a b e : Z) :
  fst (scale a b (e - 1)) * snd (scale a b e) = 2 * (fst (scale a b e) * snd (scale a b (e - 1))).
Proof.
  unfold scale. destruct (Z.leb_spec 0 (e - 1)), (Z.leb_spec 0 e); cbn [fst snd]; try lia.
  - replace e with (Z.succ (e - 1)) at 1 by lia. rewrite Z.pow_succ_r by lia. ring.
  - replace e with 0 by lia. replace (- (0 - 1)) with 1 by lia. cbn. ring.
  - replace (- (e - 1)) with (Z.succ (- e)) by lia. rewrite Z.pow_succ_r by lia. ring.
Qed.

(** At the first guess [log2 a - log2 b - 52] the scaled ratio lies in
    (2^51, 2^53). *)
Lemma scale_guess (a b : Z) :
  0 < a -> 0 < b ->
  let e0 := Z.log2 a - Z.log2 b - 52 in
  2 ^ 51 * snd (scale a b e0) < fst (scale a b e0) < 2 ^ 53 * snd (scale a b e0).
Proof.
  intros Ha Hb e0.
  destruct (Z.log2_spec a Ha) as [Ha1 Ha2]. destruct (Z.log2_spec b Hb) as [Hb1 Hb2].
  pose proof (Z.log2_nonneg a). pose proof (Z.log2_nonneg b).
  rewrite Z.pow_succ_r in Ha2, Hb2 by lia.
  unfold scale. destruct (Z.leb_spec 0 e0); cbn [fst snd].
  - assert (E : 2 ^ Z.log2 a = 2 ^ e0 * 2 ^ Z.log2 b * 2 ^ 52).
    { rewrite <- !Z.pow_add_r by lia. f_equal. unfold e0. lia. }
    pose proof (Z.pow_pos_nonneg 2 e0 ltac:(lia) ltac:(lia)).
    pose proof (Z.pow_pos_nonneg 2 (Z.log2 b) ltac:(lia) ltac:(lia)).
    change (2 ^ 53) with (2 * 2 ^ 52). change (2 ^ 52) with (2 * 2 ^ 51) in E |- *.
    nia.
  - assert (E : 2 ^ Z.log2 b * 2 ^ 52 = 2 ^ Z.log2 a * 2 ^ (- e0)).
    { rewrite <- !Z.pow_add_r by lia. f_equal. unfold e0. lia. }
    pose proof (Z.pow_pos_nonneg 2 (- e0) ltac:(lia) ltac:(lia)).
    pose proof (Z.pow_pos_nonneg 2 (Z.log2 a) ltac:(lia) ltac:(lia)).
    change (2 ^ 53) with (2 * 2 ^ 52). change (2 ^ 52) with (2 * 2 ^ 51) in E |- *.
    nia.
Qed.

(** At [b64_exp a b] the scaled ratio lies in [2^52, 2^53). *)
Lemma scale_range (a b : Z) :
  0 < a -> 0 < b ->
  2 ^ 52 * snd (scale a b (b64_exp a b)) <= fst (scale a b (b64_exp a b))
  < 2 ^ 53 * snd (scale a b (b64_exp a b)).
Proof.
  intros Ha Hb. pose proof (scale_guess a b Ha Hb) as Hg. cbv zeta in Hg.
  unfold b64_exp. set (e0 := Z.log2 a - Z.log2 b - 52) in *.
  destruct (Z.ltb_spec (fst (scale a b e0)) (2 ^ 52 * snd (scale a b e0))); [|lia].
  pose proof (scale_pred a b e0) as Hp.
  destruct (scale_pos a b e0 Ha Hb). destruct (scale_pos a b (e0 - 1) Ha Hb).
  change (2 ^ 53) with (2 * 2 ^ 52) in *. change (2 ^ 52) with (2 * 2 ^ 51) in *.
  nia.
Qed.

(** The significand of the quotient is within half a unit of the scaled
    ratio, hence within a relative [2^-53] of it. *)
Lemma significand_bound (a b : Z) :
  0 < a -> 0 < b ->
  let e := b64_exp a b in
  let n := fst (scale a b e) in let d := snd (scale a b e) in
  (U - 1) * n <= U * (round_ne n d * d) <= (U + 1) * n.
Proof.
  intros Ha Hb e n d.
  pose proof (scale_range a b Ha Hb) as Hr. fold e n d in Hr.
  destruct (scale_pos a b e Ha Hb) as [Hn Hd]. fold n d in Hn, Hd.
  pose proof (round_ne_bound n d Hd). unfold U.
  change (2 ^ 53) with 9007199254740992 in Hr. change (2 ^ 52) with 4503599627370496 in Hr.
  lia.
Qed.

End Rounding.

(** The rational [a / b], [b > 0], with its denominator as a positive. *)
Lemma Qdiv_pos (a b : Z) : (0 < b)%Z -> (inject_Z a / inject_Z b == a # Z.to_pos b)%Q.
Proof. intros Hb. destruct b as [|p|p]; try lia. unfold Qeq. cbn. lia. Qed.

Lemma one_minus_u : (1 - u == (U - 1) # Z.to_pos U)%Q.
Proof. reflexivity. Qed.

Lemma one_plus_u : (1 + u == (U + 1) # Z.to_pos U)%Q.
Proof. reflexivity. Qed.

(** Relative error of the quotient of positive integers. *)
Lemma fl_div_pos_bound (a b : Z) :
  (0 < a)%Z -> (0 < b)%Z ->
  ((a # Z.to_pos b) * ((U - 1) # Z.to_pos U) <= fl_div_pos a b
   <= (a # Z.to_pos b) * ((U + 1) # Z.to_pos U))%Q.
Proof.
  intros Ha Hb. pose proof (significand_bound a b Ha Hb) as Hs. cbv zeta in Hs.
  unfold fl_div_pos, fl_value. set (e := b64_exp a b) in *.
  set (m := round_ne (fst (scale a b e)) (snd (scale a b e))) in *.
  unfold scale in Hs. unfold Qle; cbn [Qnum Qden Qmult].
  rewrite !Pos2Z.inj_mul, !Z2Pos.id by (unfold U; lia).
  destruct (Z.leb_spec 0 e); cbn [fst snd Qnum Qden] in *.
  - split; nia.
  - rewrite Z2Pos.id by (apply Z.pow_pos_nonneg; lia). split; nia.
Qed.

Lemma fl_div_pos_nonneg (a b : Z) : (0 < a)%Z -> (0 < b)%Z -> (0 <= fl_div_pos a b)%Q.
Proof.
  intros Ha Hb. eapply Qle_trans; [|apply (fl_div_pos_bound a b Ha Hb)].
  unfold Qle; cbn [Qnum Qden Qmult]. unfold U. lia.
Qed.

(** On a positive numerator and denominator [fl_div] is [fl_div_pos]. *)
Lemma fl_div_pos_eq (a b : Z) : (0 < a)%Z -> (0 < b)%Z -> fl_div a b = fl_div_pos a b.
Proof.
  intros Ha Hb. unfold fl_div.
  replace (a =? 0)%Z with false by (symmetry; apply Z.eqb_neq; lia).
  rewrite Z.sgn_pos, (Z.sgn_pos b), !Z.abs_eq by lia. reflexivity.
Qed.

(** A non-positive numerator over a positive denominator gives a
    non-positive quotient. *)
Lemma fl_div_nonpos (a b : Z) : (a <= 0)%Z -> (0 < b)%Z -> (fl_div a b <= 0)%Q.
Proof.
  intros Ha Hb. unfold fl_div. destruct (Z.eqb_spec a 0); [apply Qle_refl|].
  rewrite Z.sgn_neg, Z.sgn_pos by lia. cbn -[fl_div_pos].
  pose proof (fl_div_pos_nonneg (Z.abs a) (Z.abs b) ltac:(lia) ltac:(lia)).
  rewrite <- (Qopp_involutive 0). apply Qopp_le_compat. exact H.
Qed.

(** ** Theorems *)


(** ** Witnesses *)

End Binary64.
