(* ===== verification/Struct.v ===== *)
(** * Python's [struct] module for the little-endian formats of the program,
    and the PCM sample conversion of [pcm_to_wav] (the PCM decoder).

    [struct.pack]/[struct.unpack]/[struct.unpack_from] are modelled for the
    standard-size, little-endian ('<') format codes that the sources and the
    [wave] module use: [h] (signed 16 bit), [H] (unsigned 16 bit), [L]
    (unsigned 32 bit) and [4s] (4-byte string).  Line 26 of both front ends
    is [pcm_int16]. *)

From Stdlib Require Import ZArith.
From stdpp Require Import base list decidable.
From S2P Require Import Prelude.

Module PyStruct.

Inductive fmt_code : Type := Fh | FH | FL | F4s.

(** The Python value of one field. *)
Inductive pyval : Type :=
  | VInt (z : Z)
  | VBytes (b : bytes).

Definition code_size (c : fmt_code) : nat :=
  match c with Fh | FH => 2 | FL | F4s => 4 end.

(** [struct.calcsize]: '<' has no padding. *)
Fixpoint calcsize (f : list fmt_code) : nat :=
  match f with [] => 0 | c :: f' => code_size c + calcsize f' end.

(** Packing one field checks the integer range of its code; a value of
    the wrong Python type is a [struct.error]; [4s] truncates or pads
    with zero bytes. *)
Definition pack_field (c : fmt_code) (v : pyval) : pyres bytes :=
  match c, v with
  | Fh, VInt z =>
      if bool_decide (-32768 <= z <= 32767)%Z then Ok (le_bytes 2 z) else Exc StructError
  | FH, VInt z =>
      if bool_decide (0 <= z <= 65535)%Z then Ok (le_bytes 2 z) else Exc StructError
  | FL, VInt z =>
      if bool_decide (0 <= z <= 4294967295)%Z then Ok (le_bytes 4 z) else Exc StructError
  | F4s, VBytes b => Ok (take 4 b ++ replicate (4 - length b) Byte.x00)
  | _, _ => Exc StructError
  end.

(** [struct.pack(fmt, *args)]: one argument per field. *)
Fixpoint pack (f : list fmt_code) (args : list pyval) : pyres bytes :=
  match f, args with
  | [], [] => Ok []
  | c :: f', v :: args' =>
      let* b := pack_field c v in
      let* rest := pack f' args' in
      Ok (b ++ rest)
  | _, _ => Exc StructError
  end.

(** Signed reading of a 16-bit two's-complement word. *)
Definition signed16 (u : Z) : Z := if (u <? 32768)%Z then u else (u - 65536)%Z.

Definition unpack_field (c : fmt_code) (bs : bytes) : pyval :=
  match c with
  | Fh => VInt (signed16 (le_value bs))
  | FH | FL => VInt (le_value bs)
  | F4s => VBytes bs
  end.

Fixpoint unpack_fields (f : list fmt_code) (buf : bytes) : list pyval :=
  match f with
  | [] => []
  | c :: f' => unpack_field c (take (code_size c) buf) :: unpack_fields f' (drop (code_size c) buf)
  end.

(** [struct.unpack] requires a buffer of exactly [calcsize] bytes,
    [struct.unpack_from] at least that many. *)
Definition unpack (f : list fmt_code) (buf : bytes) : pyres (list pyval) :=
  if decide (length buf = calcsize f) then Ok (unpack_fields f buf) else Exc StructError.

Definition unpack_from (f : list fmt_code) (buf : bytes) : pyres (list pyval) :=
  if decide (calcsize f <= length buf) then Ok (unpack_fields f buf) else Exc StructError.

(** [pcm_int16 = struct.pack('<' + 'h'*(len(pcm_data)//2),
      *struct.unpack('<' + 'h'*(len(pcm_data)//2), pcm_data))] *)
Definition pcm_int16 (pcm_data : bytes) : pyres bytes :=
  let n := length pcm_data / 2 in
  let* samples := unpack (replicate n Fh) pcm_data in
  pack (replicate n Fh) samples.

Definition int16_range (z : Z) : Prop := (-32768 <= z <= 32767)%Z.

(** ** Lemmas *)

Lemma calcsize_replicate_h (n : nat) : calcsize (replicate n Fh) = 2 * n.
Proof. induction n; simpl; lia. Qed.

Lemma signed16_range (u : Z) : (0 <= u < 65536)%Z -> (-32768 <= signed16 u <= 32767)%Z.
Proof. unfold signed16. destruct (Z.ltb_spec u 32768); lia. Qed.

Lemma signed16_mod (u : Z) : (0 <= u < 65536)%Z -> (signed16 u mod 65536 = u)%Z.
Proof.
  intros H. unfold signed16. destruct (Z.ltb_spec u 32768).
  - apply Z.mod_small; lia.
  - replace (u - 65536)%Z with (u + (-1) * 65536)%Z by lia.
    rewrite Z.mod_add by lia. apply Z.mod_small; lia.
Qed.

Local Ltac le_range bs :=
  let H := fresh in
  pose proof (le_value_range bs) as H;
  match goal with Hl : length bs = _ |- _ => rewrite Hl in H end; simpl in H.

(** Packing what was unpacked from one field gives the field's bytes back. *)
Lemma pack_field_unpack_field (c : fmt_code) (bs : bytes) :
  length bs = code_size c -> pack_field c (unpack_field c bs) = Ok bs.
Proof.
  intros Hl. destruct c; cbn [pack_field unpack_field code_size] in Hl |- *; le_range bs.
  - rewrite bool_decide_eq_true_2 by (apply signed16_range; lia).
    f_equal. rewrite <- le_bytes_mod. simpl (2 ^ _)%Z.
    rewrite signed16_mod by lia. apply le_bytes_value'. exact Hl.
  - rewrite bool_decide_eq_true_2 by lia. f_equal. apply le_bytes_value'. exact Hl.
  - rewrite bool_decide_eq_true_2 by lia. f_equal. apply le_bytes_value'. exact Hl.
  - rewrite Hl, take_ge by lia. simpl. rewrite app_nil_r. reflexivity.
Qed.

Lemma pack_unpack_fields (f : list fmt_code) (buf : bytes) :
  length buf = calcsize f -> pack f (unpack_fields f buf) = Ok buf.
Proof.
  revert buf; induction f as [|c f IH]; intros buf Hl; simpl in Hl |- *.
  - destruct buf; [reflexivity | discriminate].
  - rewrite pack_field_unpack_field by (rewrite length_take; lia). simpl.
    rewrite IH by (rewrite length_drop; lia). simpl.
    rewrite take_drop. reflexivity.
Qed.

Lemma length_unpack_fields (f : list fmt_code) (buf : bytes) :
  length (unpack_fields f buf) = length f.
Proof. revert buf; induction f; simpl; auto. Qed.

Lemma unpack_ok (f : list fmt_code) (buf : bytes) :
  length buf = calcsize f -> unpack f buf = Ok (unpack_fields f buf).
Proof. intros H. unfold unpack. rewrite decide_True by exact H. reflexivity. Qed.

Lemma unpack_from_ok (f : list fmt_code) (buf : bytes) :
  calcsize f <= length buf -> unpack_from f buf = Ok (unpack_fields f buf).
Proof. intros H. unfold unpack_from. rewrite decide_True by exact H. reflexivity. Qed.

Lemma pack_length (f : list fmt_code) (args : list pyval) (buf : bytes) :
  pack f args = Ok buf -> length buf = calcsize f.
Proof.
  revert args buf; induction f as [|c f IH]; intros [|v args] buf Hp;
    simpl in Hp; try discriminate.
  - injection Hp as <-. reflexivity.
  - destruct (pack_field c v) as [b|] eqn:Hb; [|discriminate]. simpl in Hp.
    destruct (pack f args) as [rest|] eqn:Hr; [|discriminate]. injection Hp as <-.
    rewrite length_app, (IH args rest Hr). simpl. f_equal.
    destruct c, v; cbn [pack_field code_size] in Hb |- *; try discriminate; try case_bool_decide;
      try discriminate; injection Hb as <-;
      rewrite ?length_app, ?length_take, ?length_replicate; try reflexivity; lia.
Qed.

(** A 16-bit field decodes back to the integer it was packed from. *)
Lemma unpack_pack_field_h (z : Z) (bs : bytes) :
  pack_field Fh (VInt z) = Ok bs -> unpack_field Fh bs = VInt z.
Proof.
  simpl. case_bool_decide as Hz; [|discriminate]. injection 1 as <-.
  f_equal. rewrite le_value_bytes. change (2 ^ (8 * Z.of_nat 2))%Z with 65536%Z. unfold signed16.
  destruct (Z.le_gt_cases 0 z).
  - rewrite Z.mod_small by lia. destruct (Z.ltb_spec z 32768); lia.
  - replace (z mod 65536)%Z with (z + 65536)%Z
      by (apply Z.mod_unique with (-1)%Z; lia).
    destruct (Z.ltb_spec (z + 65536) 32768); lia.
Qed.

(** ** The PCM decoder (line 26) *)

Lemma even_length_half (pcm_data : bytes) :
  Nat.even (length pcm_data) = true -> length pcm_data = 2 * (length pcm_data / 2).
Proof.
  intros He. apply Nat.even_spec in He as [k Hk]. rewrite Hk.
  rewrite Nat.mul_comm, Nat.div_mul by lia. lia.
Qed.

Lemma odd_length_half (pcm_data : bytes) :
  Nat.odd (length pcm_data) = true -> length pcm_data <> 2 * (length pcm_data / 2).
Proof.
  intros Ho Heq. rewrite <- Nat.negb_even in Ho.
  rewrite (proj2 (Nat.even_spec _)) in Ho; [discriminate|].
  exists (length pcm_data / 2). exact Heq.
Qed.

Lemma unpack_h_ok (pcm_data : bytes) :
  Nat.even (length pcm_data) = true ->
  unpack (replicate (length pcm_data / 2) Fh) pcm_data
  = Ok (unpack_fields (replicate (length pcm_data / 2) Fh) pcm_data).
Proof.
  intros He. apply unpack_ok. rewrite calcsize_replicate_h. apply even_length_half, He.
Qed.

Lemma unpack_h_odd (pcm_data : bytes) :
  Nat.odd (length pcm_data) = true ->
  unpack (replicate (length pcm_data / 2) Fh) pcm_data = Exc StructError.
Proof.
  intros Ho. unfold unpack. rewrite calcsize_replicate_h.
  rewrite decide_False by (apply odd_length_half, Ho). reflexivity.
Qed.

Lemma unpack_fields_h_shape (n : nat) (buf : bytes) :
  exists zs, unpack_fields (replicate n Fh) buf = map VInt zs
             /\ length zs = n /\ Forall int16_range zs.
Proof.
  revert buf; induction n as [|n IH]; intros buf.
  - exists []. auto.
  - destruct (IH (drop 2 buf)) as (zs & Hzs & Hl & Hr).
    exists (signed16 (le_value (take 2 buf)) :: zs). simpl. rewrite Hzs.
    split; [reflexivity|]. split; [simpl; lia|]. constructor; [|exact Hr].
    apply signed16_range. pose proof (le_value_range (take 2 buf)).
    assert (2 ^ (8 * Z.of_nat (length (take 2 buf))) <= 65536)%Z.
    { change 65536%Z with (2 ^ 16)%Z. apply Z.pow_le_mono_r; [lia|].
      rewrite length_take. lia. }
    lia.
Qed.

Lemma pack_h_ok (zs : list Z) :
  Forall int16_range zs ->
  exists buf, pack (replicate (length zs) Fh) (map VInt zs) = Ok buf
              /\ unpack_fields (replicate (length zs) Fh) buf = map VInt zs.
Proof.
  induction 1 as [|z zs Hz _ (buf & Hp & Hu)].
  - exists []. auto.
  - exists (le_bytes 2 z ++ buf). cbn [length replicate map pack unpack_fields code_size].
    assert (Hf : pack_field Fh (VInt z) = Ok (le_bytes 2 z))
      by (simpl; rewrite bool_decide_eq_true_2 by exact Hz; reflexivity).
    rewrite Hf. cbn [pbind]. rewrite Hp. split; [reflexivity|].
    rewrite <- (length_le_bytes 2 z) at 1 3.
    rewrite take_app_length, drop_app_length, Hu.
    erewrite unpack_pack_field_h by exact Hf. reflexivity.
Qed.

(** ** Theorems on the PCM decoder *)

Lemma pcm_int16_even (pcm_data : bytes) :
  Nat.even (length pcm_data) = true -> pcm_int16 pcm_data = Ok pcm_data.
Proof.
  intros He. unfold pcm_int16. rewrite unpack_h_ok by exact He. simpl.
  apply pack_unpack_fields. rewrite calcsize_replicate_h. apply even_length_half, He.
Qed.

Lemma pcm_int16_odd (pcm_data : bytes) :
  Nat.odd (length pcm_data) = true -> pcm_int16 pcm_data = Exc StructError.
Proof. intros Ho. unfold pcm_int16. rewrite unpack_h_odd by exact Ho. reflexivity. Qed.

(** ** Theorems on the PCM decoder *)

(** C10. The conversion of line 26 (unpack as little-endian signed 16-bit
    samples, pack again) is the identity on a buffer of even length and
    raises [struct.error] on a buffer of odd length. *)
Theorem pcm_int16_spec (pcm_data : bytes) :
  pcm_int16 pcm_data
  = if Nat.even (length pcm_data) then Ok pcm_data else Exc StructError.
Proof.
  destruct (Nat.even (length pcm_data)) eqn:He.
  - apply pcm_int16_even, He.
  - apply pcm_int16_odd. rewrite <- Nat.negb_even, He. reflexivity.
Qed.

(** C11. Decoding an even-length buffer yields exactly [len / 2] samples,
    each a signed 16-bit value in [-32768, 32767]. *)
Theorem decode_samples_bounds (pcm_data : bytes) :
  Nat.even (length pcm_data) = true ->
  exists zs, unpack (replicate (length pcm_data / 2) Fh) pcm_data = Ok (map VInt zs)
             /\ length zs = length pcm_data / 2 /\ Forall int16_range zs.
Proof.
  intros He. destruct (unpack_fields_h_shape (length pcm_data / 2) pcm_data) as (zs & H1 & H2).
  exists zs. rewrite unpack_h_ok, H1 by exact He. auto.
Qed.

(** C12. Any sequence of signed 16-bit samples packs without error into
    [2 * n] bytes, and unpacking them gives the samples back. *)
Theorem pack_unpack_h_roundtrip (zs : list Z) :
  Forall int16_range zs ->
  exists buf, pack (replicate (length zs) Fh) (map VInt zs) = Ok buf
              /\ length buf = 2 * length zs
              /\ unpack (replicate (length zs) Fh) buf = Ok (map VInt zs).
Proof.
  intros Hr. destruct (pack_h_ok zs Hr) as (buf & Hp & Hu).
  pose proof (pack_length _ _ _ Hp) as Hl. rewrite calcsize_replicate_h in Hl.
  exists buf. split; [exact Hp|]. split; [exact Hl|].
  rewrite unpack_ok, Hu by (rewrite calcsize_replicate_h; exact Hl). reflexivity.
Qed.

(** ** Witnesses *)

Lemma decode_samples_bounds_witness :
  Nat.even (length [Byte.x00; Byte.xff; Byte.x34; Byte.x12]) = true
  /\ exists zs, unpack (replicate (length [Byte.x00; Byte.xff; Byte.x34; Byte.x12] / 2) Fh)
                  [Byte.x00; Byte.xff; Byte.x34; Byte.x12] = Ok (map VInt zs)
       /\ length zs = length [Byte.x00; Byte.xff; Byte.x34; Byte.x12] / 2
       /\ Forall int16_range zs.
Proof. split; [reflexivity | apply decode_samples_bounds; reflexivity]. Defined.

Lemma pack_unpack_h_roundtrip_witness :
  Forall int16_range [0; -32768; 32767]%Z
  /\ exists buf, pack (replicate 3 Fh) (map VInt [0; -32768; 32767]%Z) = Ok buf
       /\ length buf = 2 * 3
       /\ unpack (replicate 3 Fh) buf = Ok (map VInt [0; -32768; 32767]%Z).
Proof.
  assert (H : Forall int16_range [0; -32768; 32767]%Z)
    by (repeat constructor; unfold int16_range; lia).
  split; [exact H | apply (pack_unpack_h_roundtrip [0; -32768; 32767]%Z H)].
Defined.
End PyStruct.
