(* ===== verification/BytesIO.v ===== *)
(** * [io.BytesIO]: the in-memory file the WAV container is built in.

    [pcm_to_wav] creates one [io.BytesIO()], hands it to [wave.open(.., 'wb')],
    rewinds it and returns it; the handler reads it through [wave.open(..,
    'rb')] in [debug_wav_info] and again through [sr.AudioFile].  The object
    is shared by all of them, so it is modelled once, as a buffer and a
    position, and the wave objects act on it by state passing. *)

From Stdlib Require Import ZArith.
From stdpp Require Import base list decidable.
From S2P Require Import Prelude.

Module BytesIO.

Record bytesio : Type := mk_bytesio { bio_buf : bytes; bio_pos : nat }.

(** [io.BytesIO()]. *)
Definition empty : bytesio := mk_bytesio [] 0.

(** [write(b)]: overwrite at the position, zero-filling a gap when the
    position is past the end, and advance. *)
Definition write (b : bytes) (f : bytesio) : bytesio :=
  let buf := bio_buf f in
  let p := bio_pos f in
  mk_bytesio (take p buf ++ replicate (p - length buf) Byte.x00 ++ b ++ drop (p + length b) buf)
             (p + length b).

(** [read(n)]: at most [n] bytes (all the rest when [n < 0]). *)
Definition read (n : Z) (f : bytesio) : bytes * bytesio :=
  let avail := length (bio_buf f) - bio_pos f in
  let k := if (n <? 0)%Z then avail else Nat.min (Z.to_nat n) avail in
  (take k (drop (bio_pos f) (bio_buf f)), mk_bytesio (bio_buf f) (bio_pos f + k)).

Definition tell (f : bytesio) : nat := bio_pos f.

(** [seek(pos, whence)]: whence 0 refuses a negative offset; whence 1
    and 2 clamp a negative result to 0. *)
Definition seek (pos : Z) (whence : nat) (f : bytesio) : pyres bytesio :=
  match whence with
  | 0 => if (pos <? 0)%Z then Exc (ValueError NegativeSeekValue)
         else Ok (mk_bytesio (bio_buf f) (Z.to_nat pos))
  | 1 => Ok (mk_bytesio (bio_buf f) (Z.to_nat (Z.of_nat (bio_pos f) + pos)))
  | _ => Ok (mk_bytesio (bio_buf f) (Z.to_nat (Z.of_nat (length (bio_buf f)) + pos)))
  end.

(** [getbuffer().nbytes]: only printed by the handlers. *)
Definition nbytes (f : bytesio) : nat := length (bio_buf f).

(** ** Lemmas *)

(** Appending at the end of the buffer. *)
Lemma write_at_end (b : bytes) (f : bytesio) :
  bio_pos f = length (bio_buf f) ->
  write b f = mk_bytesio (bio_buf f ++ b) (length (bio_buf f) + length b).
Proof.
  destruct f as [buf p]; simpl. intros ->. unfold write; simpl.
  rewrite take_ge, drop_ge by lia. rewrite Nat.sub_diag. simpl.
  rewrite app_nil_r. reflexivity.
Qed.

Lemma read_at (n : nat) (buf rest : bytes) (p : nat) :
  length buf = p -> n <= length rest ->
  read (Z.of_nat n) (mk_bytesio (buf ++ rest) p)
  = (take n rest, mk_bytesio (buf ++ rest) (p + n)).
Proof.
  intros Hp Hn. unfold read; simpl.
  replace (Z.of_nat n <? 0)%Z with false by (symmetry; apply Z.ltb_ge; lia).
  rewrite length_app, Nat2Z.id, <- Hp, drop_app_length.
  replace (Nat.min n (length buf + length rest - length buf)) with n by lia.
  reflexivity.
Qed.

Lemma seek_0 (f : bytesio) : seek 0 0 f = Ok (mk_bytesio (bio_buf f) 0).
Proof. reflexivity. Qed.

End BytesIO.
