(* ===== verification/WaveWrite.v ===== *)
(** * [wave.Wave_write] (CPython 3.11) as used by [pcm_to_wav].

    The writer object's fields are a record; the [io.BytesIO] it writes to
    is shared with the caller, so every operation acts on the pair
    (writer, BytesIO) in the state-and-exception monad of the prelude.
    [setnchannels], [setsampwidth], [setframerate], [writeframes] (with
    [writeframesraw], [_ensure_header_written], [_write_header],
    [_patchheader]) and [close] follow wave.py line by line; [with_close]
    is the [with] statement, which calls [close] on the way out even when
    the body raised. *)

From Stdlib Require Import ZArith String.
From stdpp Require Import base list decidable.
From S2P Require Import Prelude Struct BytesIO.
Import PyStruct BytesIO.

Module WaveWrite.

Record wave_write : Type := mk_ww {
  ww_open : bool;              (* self._file is not None *)
  ww_nchannels : Z;
  ww_sampwidth : Z;
  ww_framerate : Z;
  ww_nframes : Z;
  ww_nframeswritten : Z;
  ww_datawritten : Z;
  ww_datalength : Z;
  ww_headerwritten : bool;
  ww_form_length_pos : nat;
  ww_data_length_pos : nat }.

Definition st : Type := (wave_write * bytesio)%type.

(** [Wave_write.initfp]: all counts zero, the file attached. *)
Definition ww_init : wave_write := mk_ww true 0 0 0 0 0 0 0 false 0 0.

Definition WAVE_FORMAT_PCM : Z := 1.

(** A 4-character chunk identifier, b'RIFF' and the like. *)
Definition tag (s : string) : bytes := String.list_byte_of_string s.

(** [struct.pack('<L4s4sLHHLLHH4s', ...)] of [_write_header]. *)
Definition header_fmt : list fmt_code := [FL; F4s; F4s; FL; FH; FH; FL; FL; FH; FH; F4s].

(** ** Access to the writer and to the shared file *)

Definition get_w : PyM st wave_write := fun s => (Ok (fst s), s).
Definition modify_w (g : wave_write -> wave_write) : PyM st unit :=
  fun s => (Ok tt, (g (fst s), snd s)).

Definition file_write (b : bytes) : PyM st unit := fun s =>
  if ww_open (fst s) then (Ok tt, (fst s, write b (snd s))) else (Exc AttributeError, s).
Definition file_tell : PyM st nat := fun s =>
  if ww_open (fst s) then (Ok (tell (snd s)), s) else (Exc AttributeError, s).
Definition file_seek (pos : Z) : PyM st unit := fun s =>
  if ww_open (fst s) then
    match seek pos 0 (snd s) with
    | Ok f => (Ok tt, (fst s, f))
    | Exc e => (Exc e, s)
    end
  else (Exc AttributeError, s).
Definition file_flush : PyM st unit := fun s =>
  if ww_open (fst s) then (Ok tt, s) else (Exc AttributeError, s).

(** Field updates. *)
Definition set_nchannels (n : Z) (w : wave_write) : wave_write :=
  let 'mk_ww o _ sw fr nf nfw dw dl hw fp dp := w in mk_ww o n sw fr nf nfw dw dl hw fp dp.
Definition set_sampwidth (sw : Z) (w : wave_write) : wave_write :=
  let 'mk_ww o nc _ fr nf nfw dw dl hw fp dp := w in mk_ww o nc sw fr nf nfw dw dl hw fp dp.
Definition set_framerate (fr : Z) (w : wave_write) : wave_write :=
  let 'mk_ww o nc sw _ nf nfw dw dl hw fp dp := w in mk_ww o nc sw fr nf nfw dw dl hw fp dp.
Definition set_nframes (nf : Z) (w : wave_write) : wave_write :=
  let 'mk_ww o nc sw fr _ nfw dw dl hw fp dp := w in mk_ww o nc sw fr nf nfw dw dl hw fp dp.
Definition set_datalength (dl : Z) (w : wave_write) : wave_write :=
  let 'mk_ww o nc sw fr nf nfw dw _ hw fp dp := w in mk_ww o nc sw fr nf nfw dw dl hw fp dp.
Definition set_form_length_pos (fp : nat) (w : wave_write) : wave_write :=
  let 'mk_ww o nc sw fr nf nfw dw dl hw _ dp := w in mk_ww o nc sw fr nf nfw dw dl hw fp dp.
Definition set_data_length_pos (dp : nat) (w : wave_write) : wave_write :=
  let 'mk_ww o nc sw fr nf nfw dw dl hw fp _ := w in mk_ww o nc sw fr nf nfw dw dl hw fp dp.
Definition set_headerwritten (w : wave_write) : wave_write :=
  let 'mk_ww o nc sw fr nf nfw dw dl _ fp dp := w in mk_ww o nc sw fr nf nfw dw dl true fp dp.
Definition add_written (nbytes nfr : Z) (w : wave_write) : wave_write :=
  let 'mk_ww o nc sw fr nf nfw dw dl hw fp dp := w in
  mk_ww o nc sw fr nf (nfw + nfr) (dw + nbytes) dl hw fp dp.
Definition set_closed (w : wave_write) : wave_write :=
  let 'mk_ww _ nc sw fr nf nfw dw dl hw fp dp := w in mk_ww false nc sw fr nf nfw dw dl hw fp dp.

(** ** The parameter setters *)

Definition check_not_started : PyM st unit :=
  let! w := get_w in
  if negb (ww_datawritten w =? 0)%Z then sraise (WaveError WParamsAfterWrite) else sret tt.

Definition setnchannels (nchannels : Z) : PyM st unit :=
  check_not_started ;;
  if (nchannels <? 1)%Z then sraise (WaveError WBadNChannels)
  else modify_w (set_nchannels nchannels).

Definition setsampwidth (sampwidth : Z) : PyM st unit :=
  check_not_started ;;
  if (sampwidth <? 1)%Z || (4 <? sampwidth)%Z then sraise (WaveError WBadSampWidth)
  else modify_w (set_sampwidth sampwidth).

(** [int(round(framerate))] is the identity on the integers passed here. *)
Definition setframerate (framerate : Z) : PyM st unit :=
  check_not_started ;;
  if (framerate <=? 0)%Z then sraise (WaveError WBadFrameRate)
  else modify_w (set_framerate framerate).

(** ** Writing the header and the frames *)

Definition _write_header (initlength : Z) : PyM st unit :=
  let! w0 := get_w in
  if ww_headerwritten w0 then sraise AssertionError else
  file_write (tag "RIFF") ;;
  let! w := get_w in
  let! nframes :=
    (if (ww_nframes w =? 0)%Z
     then slift (py_floordiv initlength (ww_nchannels w * ww_sampwidth w))
     else sret (ww_nframes w)) in
  let nc := ww_nchannels w in
  let sw := ww_sampwidth w in
  let fr := ww_framerate w in
  let datalength := (nframes * nc * sw)%Z in
  modify_w (fun w => set_datalength datalength (set_nframes nframes w)) ;;
  let! fpos := file_tell in
  modify_w (set_form_length_pos fpos) ;;
  let! hdr := slift (pack header_fmt
                [VInt (36 + datalength); VBytes (tag "WAVE");
                 VBytes (tag "fmt "); VInt 16;
                 VInt WAVE_FORMAT_PCM; VInt nc; VInt fr; VInt (nc * fr * sw);
                 VInt (nc * sw); VInt (sw * 8); VBytes (tag "data")]) in
  file_write hdr ;;
  let! dpos := file_tell in
  modify_w (set_data_length_pos dpos) ;;
  let! dl := slift (pack [FL] [VInt datalength]) in
  file_write dl ;;
  modify_w set_headerwritten.

Definition _ensure_header_written (datasize : Z) : PyM st unit :=
  let! w := get_w in
  if ww_headerwritten w then sret tt
  else if (ww_nchannels w =? 0)%Z then sraise (WaveError WNChannelsNotSpecified)
  else if (ww_sampwidth w =? 0)%Z then sraise (WaveError WSampWidthNotSpecified)
  else if (ww_framerate w =? 0)%Z then sraise (WaveError WFrameRateNotSpecified)
  else _write_header datasize.

Definition _patchheader : PyM st unit :=
  let! w := get_w in
  if negb (ww_headerwritten w) then sraise AssertionError else
  if (ww_datawritten w =? ww_datalength w)%Z then sret tt else
  let! curpos := file_tell in
  file_seek (Z.of_nat (ww_form_length_pos w)) ;;
  let! b1 := slift (pack [FL] [VInt (36 + ww_datawritten w)]) in
  file_write b1 ;;
  file_seek (Z.of_nat (ww_data_length_pos w)) ;;
  let! b2 := slift (pack [FL] [VInt (ww_datawritten w)]) in
  file_write b2 ;;
  file_seek (Z.of_nat curpos) ;;
  modify_w (fun w' => set_datalength (ww_datawritten w) w').

(** [writeframesraw]: no conversion, and a little-endian host writes the
    frames as they are. *)
Definition writeframesraw (data : bytes) : PyM st unit :=
  _ensure_header_written (Z.of_nat (length data)) ;;
  let! w := get_w in
  let! nframes := slift (py_floordiv (Z.of_nat (length data)) (ww_sampwidth w * ww_nchannels w)) in
  file_write data ;;
  modify_w (add_written (Z.of_nat (length data)) nframes).

Definition writeframes (data : bytes) : PyM st unit :=
  writeframesraw data ;;
  let! w := get_w in
  if negb (ww_datalength w =? ww_datawritten w)%Z then _patchheader else sret tt.

(** [close]: the [finally] clause drops the file whatever happened. *)
Definition close : PyM st unit := fun s =>
  let body : PyM st unit :=
    let! w := get_w in
    if ww_open w then
      _ensure_header_written 0 ;;
      let! w' := get_w in
      (if negb (ww_datalength w' =? ww_datawritten w')%Z then _patchheader else sret tt) ;;
      file_flush
    else sret tt in
  let '(r, (w', f')) := body s in (r, (set_closed w', f')).

(** [with wave.open(f, 'wb') as wf: body]: [__exit__] calls [close]; an
    exception raised by [close] replaces the one of the body. *)
Definition with_close {A} (body : PyM st A) : PyM st A := fun s =>
  let '(r, s1) := body s in
  let '(rc, s2) := close s1 in
  match rc with
  | Exc e => (Exc e, s2)
  | Ok _ => (r, s2)
  end.

(** ** The container the writer produces *)

(** RIFF header of a PCM WAV file: 'RIFF', size, 'WAVE', a 16-byte 'fmt '
    chunk, and the 'data' chunk header: 44 bytes. *)
Definition wav_header (nchannels sampwidth framerate datalength : Z) : bytes :=
  tag "RIFF" ++ le_bytes 4 (36 + datalength) ++ tag "WAVE" ++ tag "fmt "
  ++ le_bytes 4 16 ++ le_bytes 2 WAVE_FORMAT_PCM ++ le_bytes 2 nchannels
  ++ le_bytes 4 framerate ++ le_bytes 4 (nchannels * framerate * sampwidth)
  ++ le_bytes 2 (nchannels * sampwidth) ++ le_bytes 2 (sampwidth * 8)
  ++ tag "data" ++ le_bytes 4 datalength.

(** The ranges [struct.pack] checks on the header fields. *)
Definition fmt_fits (nc sw fr dl : Z) : Prop :=
  (0 <= nc <= 65535 /\ 0 <= fr <= 4294967295 /\ 0 <= nc * fr * sw <= 4294967295
   /\ 0 <= nc * sw <= 65535 /\ 0 <= sw * 8 <= 65535
   /\ 0 <= dl /\ 36 + dl <= 4294967295)%Z.

(** A writer whose three parameters are set and nothing written yet. *)
Definition w_params (nc sw fr : Z) : wave_write := mk_ww true nc sw fr 0 0 0 0 false 0 0.

(** The writer after the header and [nframes] frames of [data]. *)
Definition w_written (nc sw fr nframes datalen : Z) : wave_write :=
  mk_ww true nc sw fr nframes nframes datalen datalen true 4 40.

(** ** Step lemmas *)

Local Ltac ww_run :=
  unfold sbind, sret, sraise, slift, get_w, modify_w, file_write, file_tell, file_flush;
  cbn -[pack le_bytes Z.of_nat tag].

Lemma length_wav_header nc sw fr dl : length (wav_header nc sw fr dl) = 44.
Proof. unfold wav_header. rewrite !length_app, !length_le_bytes. reflexivity. Qed.

Lemma setnchannels_ok (n : Z) (w : wave_write) (f : bytesio) :
  ww_datawritten w = 0%Z -> (1 <= n)%Z ->
  setnchannels n (w, f) = (Ok tt, (set_nchannels n w, f)).
Proof.
  intros Hd Hn. unfold setnchannels, check_not_started. ww_run. rewrite Hd. cbn. replace (n <? 1)%Z with false by (symmetry; apply Z.ltb_ge; lia). reflexivity.
Qed.

Lemma setsampwidth_ok (n : Z) (w : wave_write) (f : bytesio) :
  ww_datawritten w = 0%Z -> (1 <= n <= 4)%Z ->
  setsampwidth n (w, f) = (Ok tt, (set_sampwidth n w, f)).
Proof.
  intros Hd Hn. unfold setsampwidth, check_not_started. ww_run. rewrite Hd. cbn. replace (n <? 1)%Z with false by (symmetry; apply Z.ltb_ge; lia).
  replace (4 <? n)%Z with false by (symmetry; apply Z.ltb_ge; lia). reflexivity.
Qed.

Lemma setframerate_ok (n : Z) (w : wave_write) (f : bytesio) :
  ww_datawritten w = 0%Z -> (0 < n)%Z ->
  setframerate n (w, f) = (Ok tt, (set_framerate n w, f)).
Proof.
  intros Hd Hn. unfold setframerate, check_not_started. ww_run. rewrite Hd. cbn. replace (n <=? 0)%Z with false by (symmetry; apply Z.leb_gt; lia). reflexivity.
Qed.

Lemma pack_header_ok (nc sw fr dl : Z) :
  fmt_fits nc sw fr dl ->
  pack header_fmt
    [VInt (36 + dl); VBytes (tag "WAVE"); VBytes (tag "fmt "); VInt 16;
     VInt WAVE_FORMAT_PCM; VInt nc; VInt fr; VInt (nc * fr * sw);
     VInt (nc * sw); VInt (sw * 8); VBytes (tag "data")]
  = Ok (le_bytes 4 (36 + dl) ++ tag "WAVE" ++ tag "fmt "
        ++ le_bytes 4 16 ++ le_bytes 2 WAVE_FORMAT_PCM ++ le_bytes 2 nc
        ++ le_bytes 4 fr ++ le_bytes 4 (nc * fr * sw)
        ++ le_bytes 2 (nc * sw) ++ le_bytes 2 (sw * 8) ++ tag "data").
Proof.
  intros Hf. unfold fmt_fits in Hf. unfold header_fmt. cbn [pack pack_field pbind].
  rewrite !bool_decide_eq_true_2 by (unfold WAVE_FORMAT_PCM; lia). reflexivity.
Qed.

Lemma pack_L_ok (z : Z) : (0 <= z <= 4294967295)%Z -> pack [FL] [VInt z] = Ok (le_bytes 4 z).
Proof.
  intros Hz. cbn [pack pack_field]. rewrite bool_decide_eq_true_2 by exact Hz.
  cbn. rewrite app_nil_r. reflexivity.
Qed.

Lemma pack_L_overflow (z : Z) : (4294967295 < z)%Z -> pack [FL] [VInt z] = Exc StructError.
Proof. intros Hz. cbn [pack pack_field]. rewrite bool_decide_eq_false_2 by lia. reflexivity. Qed.
Lemma write_header_fresh (nc sw fr L : Z) :
  (1 <= nc)%Z -> (1 <= sw)%Z -> fmt_fits nc sw fr (L / (nc * sw) * nc * sw) ->
  _write_header L (w_params nc sw fr, BytesIO.empty) =
  (Ok tt, (mk_ww true nc sw fr (L / (nc * sw)) 0 0 (L / (nc * sw) * nc * sw) true 4 40,
           mk_bytesio (wav_header nc sw fr (L / (nc * sw) * nc * sw)) 44)).
Proof.
  intros Hnc Hsw Hf. unfold _write_header. ww_run.
  unfold py_floordiv. replace (nc * sw =? 0)%Z with false by (symmetry; apply Z.eqb_neq; nia).
  rewrite pack_header_ok by exact Hf.
  rewrite pack_L_ok by (unfold fmt_fits in Hf; lia).
  rewrite !length_app, !length_le_bytes. cbn.
  rewrite (write_at_end _ BytesIO.empty) by reflexivity.
  do 2 (rewrite (write_at_end _ (mk_bytesio _ _)) by reflexivity).
  cbn [bio_buf bio_pos BytesIO.empty]. rewrite !length_app, !length_le_bytes.
  unfold wav_header, tag. cbn. rewrite <- !app_assoc. reflexivity.
Qed.

Lemma pack_header_overflow (nc sw fr dl : Z) :
  (4294967295 < 36 + dl)%Z ->
  pack header_fmt
    [VInt (36 + dl); VBytes (tag "WAVE"); VBytes (tag "fmt "); VInt 16;
     VInt WAVE_FORMAT_PCM; VInt nc; VInt fr; VInt (nc * fr * sw);
     VInt (nc * sw); VInt (sw * 8); VBytes (tag "data")] = Exc StructError.
Proof.
  intros H. unfold header_fmt. cbn [pack pack_field pbind].
  rewrite bool_decide_eq_false_2 by lia. reflexivity.
Qed.

(** When the data is too long for the 32-bit RIFF size field, [writeframes]
    raises [struct.error] from [_write_header], and so does the [close]
    that the [with] statement runs afterwards. *)
Lemma writeframes_overflow (nc sw fr : Z) (data : bytes) :
  let L := Z.of_nat (length data) in
  (1 <= nc)%Z -> (1 <= sw)%Z -> (0 < fr)%Z -> (nc * sw <= L)%Z ->
  (4294967295 < 36 + L / (nc * sw) * nc * sw)%Z ->
  fst (writeframes data (w_params nc sw fr, BytesIO.empty)) = Exc StructError
  /\ fst (close (snd (writeframes data (w_params nc sw fr, BytesIO.empty)))) = Exc StructError.
Proof.
  intros L Hnc Hsw Hfr HL Hov. subst L.
  assert (HN : (Z.of_nat (length data) / (nc * sw) =? 0)%Z = false).
  { apply Z.eqb_neq. assert (1 <= Z.of_nat (length data) / (nc * sw))%Z; [|lia].
    apply Z.div_le_lower_bound; lia. }
  assert (E1 : (nc =? 0)%Z = false) by (apply Z.eqb_neq; lia).
  assert (E2 : (sw =? 0)%Z = false) by (apply Z.eqb_neq; lia).
  assert (E3 : (fr =? 0)%Z = false) by (apply Z.eqb_neq; lia).
  assert (E4 : (nc * sw =? 0)%Z = false) by (apply Z.eqb_neq; nia).
  unfold writeframes, writeframesraw, _ensure_header_written, close, _write_header, py_floordiv.
  ww_run. do 2 (rewrite ?E1, ?E2, ?E3, ?E4; ww_run).
  rewrite pack_header_overflow by exact Hov. ww_run.
  do 2 (rewrite ?E1, ?E2, ?E3, ?HN; ww_run).
  rewrite pack_header_overflow by exact Hov. split; reflexivity.
Qed.

Lemma ensure_header_fresh (nc sw fr L : Z) (f : bytesio) :
  (1 <= nc)%Z -> (1 <= sw)%Z -> (0 < fr)%Z ->
  _ensure_header_written L (w_params nc sw fr, f) = _write_header L (w_params nc sw fr, f).
Proof.
  intros Hnc Hsw Hfr. unfold _ensure_header_written. ww_run.
  replace (nc =? 0)%Z with false by (symmetry; apply Z.eqb_neq; lia).
  replace (sw =? 0)%Z with false by (symmetry; apply Z.eqb_neq; lia).
  replace (fr =? 0)%Z with false by (symmetry; apply Z.eqb_neq; lia).
  reflexivity.
Qed.

(** [close] on a writer that has its parameters but has written nothing
    writes a header for zero frames and succeeds. *)
Lemma close_params (nc sw fr : Z) :
  (1 <= nc)%Z -> (1 <= sw)%Z -> (0 < fr)%Z -> fmt_fits nc sw fr 0 ->
  fst (close (w_params nc sw fr, BytesIO.empty)) = Ok tt.
Proof.
  intros Hnc Hsw Hfr Hf. unfold close, sbind, get_w. cbn -[_ensure_header_written].
  rewrite ensure_header_fresh, write_header_fresh by (rewrite ?Z.div_0_l by nia; assumption).
  reflexivity.
Qed.

Lemma writeframes_fresh (nc sw fr : Z) (data : bytes) :
  let L := Z.of_nat (length data) in
  (1 <= nc)%Z -> (1 <= sw)%Z -> (0 < fr)%Z ->
  (L / (nc * sw) * nc * sw = L)%Z -> fmt_fits nc sw fr L ->
  writeframes data (w_params nc sw fr, BytesIO.empty) =
  (Ok tt, (w_written nc sw fr (L / (nc * sw)) L,
           mk_bytesio (wav_header nc sw fr L ++ data) (44 + length data))).
Proof.
  intros L Hnc Hsw Hfr Hdiv Hf.
  unfold writeframes, writeframesraw, _ensure_header_written. ww_run.
  replace (nc =? 0)%Z with false by (symmetry; apply Z.eqb_neq; lia).
  replace (sw =? 0)%Z with false by (symmetry; apply Z.eqb_neq; lia).
  replace (fr =? 0)%Z with false by (symmetry; apply Z.eqb_neq; lia).
  fold L. rewrite write_header_fresh by (rewrite ?Hdiv; assumption).
  cbn -[wav_header write Z.mul Z.div].
  unfold py_floordiv. replace (sw * nc =? 0)%Z with false by (symmetry; apply Z.eqb_neq; nia).
  rewrite write_at_end by (cbn -[wav_header]; rewrite length_wav_header; reflexivity).
  cbn -[wav_header Z.mul Z.div].
  rewrite length_wav_header, Hdiv, (Z.mul_comm sw nc), !Z.add_0_l, Z.eqb_refl.
  reflexivity.
Qed.

(** [close] on a writer whose header is written and whose data length is
    right only detaches the file. *)
Lemma close_written (nc sw fr nframes datalen : Z) (f : bytesio) :
  close (w_written nc sw fr nframes datalen, f)
  = (Ok tt, (set_closed (w_written nc sw fr nframes datalen), f)).
Proof. unfold close, _ensure_header_written. ww_run. rewrite Z.eqb_refl. reflexivity. Qed.
End WaveWrite.
