(* ===== verification/PcmToWav.v ===== *)
(** * [pcm_to_wav]: the WAV encoder of both front ends.

    [pcm_to_wav(pcm_data, sample_rate=48000)] rejects empty data, opens a
    [wave] writer on a fresh [io.BytesIO], sets mono / 16 bit / the sample
    rate, converts the samples (line 26, [PyStruct.pcm_int16]), writes the
    frames, closes the writer through the [with] statement and rewinds the
    buffer.  Every exception inside the [try] becomes a [ValueError] whose
    message embeds the original one.  The canonical 44-byte header that the
    writer produces is [wav_header]. *)

From Stdlib Require Import ZArith String.
From stdpp Require Import base list decidable.
From S2P Require Import Prelude Struct BytesIO WaveWrite.
Import PyStruct BytesIO WaveWrite.

Module PcmToWav.

Definition DEFAULT_SAMPLE_RATE : Z := 48000.

(** The inner [try: pcm_int16 = ... except struct.error as e: raise
    ValueError(...)]. *)
Definition convert_samples (pcm_data : bytes) : PyM st bytes :=
  stry (slift (pcm_int16 pcm_data))
       (fun e => match e with
                 | StructError => sraise (ValueError (PcmConversionFailed e))
                 | _ => sraise e
                 end).

(** The body of [with wave.open(wav_file, 'wb') as wf:]. *)
Definition write_body (pcm_data : bytes) (sample_rate : Z) : PyM st unit :=
  setnchannels 1 ;;
  setsampwidth 2 ;;
  setframerate sample_rate ;;
  let! samples := convert_samples pcm_data in
  writeframes samples.

Definition pcm_to_wav (pcm_data : bytes) (sample_rate : Z) : pyres bytesio :=
  if length pcm_data =? 0 then Exc (ValueError NoPcmData) else
  let run : PyM st bytesio :=
    with_close (write_body pcm_data sample_rate) ;;
    fun s => match seek 0 0 (snd s) with
             | Ok f => (Ok f, (fst s, f))
             | Exc e => (Exc e, s)
             end in
  match run (ww_init, BytesIO.empty) with
  | (Ok f, _) => Ok f
  | (Exc e, _) => Exc (ValueError (WavConversionFailed e))
  end.

(** What the writer needs to fit its 32-bit header fields, for mono
    16-bit audio. *)
Definition header_fits (sample_rate datalength : Z) : Prop :=
  (0 < sample_rate /\ 2 * sample_rate <= 4294967295
   /\ 36 + datalength <= 4294967295)%Z.

(** ** Step lemmas *)

Lemma setters_ok (rate : Z) (f : bytesio) (A : Type) (k : PyM st A) :
  (0 < rate)%Z ->
  (setnchannels 1 ;; setsampwidth 2 ;; setframerate rate ;; k) (ww_init, f)
  = k (w_params 1 2 rate, f).
Proof.
  intros Hr.
  py_step setnchannels_ok. py_step setsampwidth_ok. py_step setframerate_ok.
  reflexivity.
Qed.

Lemma convert_samples_ok (pcm_data : bytes) (s : st) :
  Nat.even (length pcm_data) = true -> convert_samples pcm_data s = (Ok pcm_data, s).
Proof.
  intros He. unfold convert_samples. apply stry_ok. unfold slift.
  rewrite pcm_int16_even by exact He. reflexivity.
Qed.

Lemma even_div2 (pcm_data : bytes) :
  Nat.even (length pcm_data) = true ->
  (Z.of_nat (length pcm_data) / (1 * 2) * 1 * 2 = Z.of_nat (length pcm_data))%Z.
Proof.
  intros He. rewrite (even_length_half pcm_data He).
  remember (length pcm_data / 2) as m. rewrite Nat2Z.inj_mul. change (1 * 2)%Z with 2%Z.
  rewrite (Z.mul_comm (Z.of_nat 2)), Z.div_mul by lia. lia.
Qed.

Lemma write_body_ok (pcm_data : bytes) (rate : Z) :
  Nat.even (length pcm_data) = true -> header_fits rate (Z.of_nat (length pcm_data)) ->
  write_body pcm_data rate (ww_init, BytesIO.empty)
  = (Ok tt, (w_written 1 2 rate (Z.of_nat (length pcm_data) / (1 * 2)) (Z.of_nat (length pcm_data)),
             mk_bytesio (wav_header 1 2 rate (Z.of_nat (length pcm_data)) ++ pcm_data)
                        (44 + length pcm_data))).
Proof.
  intros He Hf. unfold header_fits in Hf. unfold write_body.
  rewrite setters_ok by lia. py_step convert_samples_ok.
  apply writeframes_fresh; try lia.
  - apply even_div2, He.
  - unfold fmt_fits. lia.
Qed.

(** ** [pcm_to_wav] branch by branch *)

(** Non-empty PCM data of even length whose sizes fit the header: a
    BytesIO rewound to 0 that holds the canonical 44-byte header for mono,
    16-bit, [sample_rate] Hz and [len] data bytes, followed by the received
    bytes unchanged. *)
Lemma pcm_to_wav_ok (pcm_data : bytes) (sample_rate : Z) :
  length pcm_data <> 0 -> Nat.even (length pcm_data) = true ->
  header_fits sample_rate (Z.of_nat (length pcm_data)) ->
  pcm_to_wav pcm_data sample_rate
  = Ok (mk_bytesio (wav_header 1 2 sample_rate (Z.of_nat (length pcm_data)) ++ pcm_data) 0).
Proof.
  intros Hne He Hf. unfold pcm_to_wav.
  replace (length pcm_data =? 0) with false by (symmetry; apply Nat.eqb_neq, Hne).
  cbv beta zeta. unfold sbind at 1, with_close.
  rewrite write_body_ok, close_written by assumption. reflexivity.
Qed.

(** Empty data is refused with the 'no PCM data' [ValueError] before
    anything is written. *)
Lemma pcm_to_wav_empty (sample_rate : Z) :
  pcm_to_wav [] sample_rate = Exc (ValueError NoPcmData).
Proof. reflexivity. Qed.

(** Data of odd length makes the sample conversion raise [struct.error];
    it is re-raised as 'PCM conversion failed', the [with] statement
    closes the writer (which succeeds, writing an empty header), and the
    outer handler wraps it as 'WAV conversion error'. *)
Lemma pcm_to_wav_odd (pcm_data : bytes) (sample_rate : Z) :
  Nat.odd (length pcm_data) = true -> (0 < sample_rate)%Z ->
  (2 * sample_rate <= 4294967295)%Z ->
  pcm_to_wav pcm_data sample_rate
  = Exc (ValueError (WavConversionFailed (ValueError (PcmConversionFailed StructError)))).
Proof.
  intros Ho Hr Hr2. unfold pcm_to_wav.
  replace (length pcm_data =? 0) with false
    by (symmetry; apply Nat.eqb_neq; intros E; rewrite E in Ho; discriminate).
  cbv beta zeta. unfold sbind at 1, with_close, write_body.
  rewrite setters_ok by exact Hr.
  rewrite (sbind_exc (convert_samples pcm_data) _ _ (w_params 1 2 sample_rate, BytesIO.empty)
             (ValueError (PcmConversionFailed StructError))).
  2: { unfold convert_samples.
       rewrite (stry_exc _ _ _ (w_params 1 2 sample_rate, BytesIO.empty) StructError);
         [reflexivity|].
       unfold slift. rewrite pcm_int16_odd by exact Ho. reflexivity. }
  pose proof (close_params 1 2 sample_rate ltac:(lia) ltac:(lia) Hr
                ltac:(unfold fmt_fits; lia)) as Hc.
  destruct (close (w_params 1 2 sample_rate, BytesIO.empty)) as [rc s2].
  simpl in Hc. subst rc. reflexivity.
Qed.

(** Even, non-empty data too long for the 32-bit RIFF size field
    ([36 + len > 2^32 - 1]) makes the header [struct.pack] raise
    [struct.error], and [close] raises it again; [pcm_to_wav] reports a
    WAV conversion error. *)
Lemma pcm_to_wav_overflow (pcm_data : bytes) (sample_rate : Z) :
  (Z.of_nat (length pcm_data) mod 2 = 0)%Z ->
  (4294967295 < 36 + Z.of_nat (length pcm_data))%Z ->
  (0 < sample_rate)%Z -> (2 * sample_rate <= 4294967295)%Z ->
  pcm_to_wav pcm_data sample_rate = Exc (ValueError (WavConversionFailed StructError)).
Proof.
  intros Hm Hov Hr Hr2. pose proof (nat_even_of_Z _ Hm) as He.
  unfold pcm_to_wav.
  replace (length pcm_data =? 0) with false by (symmetry; apply Nat.eqb_neq; lia).
  cbv beta zeta. unfold sbind at 1, with_close, write_body.
  rewrite setters_ok by exact Hr. py_step convert_samples_ok.
  destruct (writeframes_overflow 1 2 sample_rate pcm_data) as [H1 H2]; try lia.
  { rewrite (even_div2 pcm_data He). exact Hov. }
  destruct (writeframes pcm_data (w_params 1 2 sample_rate, BytesIO.empty)) as [r s1].
  simpl in H1, H2. subst r. destruct (close s1) as [rc s2]. simpl in H2. subst rc.
  reflexivity.
Qed.

(** The four outcomes of [pcm_to_wav] at a rate whose header fields
    fit, by the length of the data. *)
Lemma pcm_to_wav_cases (pcm_data : bytes) (sample_rate : Z) :
  (0 < sample_rate)%Z -> (2 * sample_rate <= 4294967295)%Z ->
  pcm_to_wav pcm_data sample_rate
  = if length pcm_data =? 0 then Exc (ValueError NoPcmData)
    else if Nat.odd (length pcm_data) then
      Exc (ValueError (WavConversionFailed (ValueError (PcmConversionFailed StructError))))
    else if (4294967295 <? 36 + Z.of_nat (length pcm_data))%Z then
      Exc (ValueError (WavConversionFailed StructError))
    else Ok (mk_bytesio (wav_header 1 2 sample_rate (Z.of_nat (length pcm_data)) ++ pcm_data) 0).
Proof.
  intros Hr Hr2. destruct (length pcm_data =? 0) eqn:E0.
  - apply Nat.eqb_eq, length_zero_iff_nil in E0. subst. apply pcm_to_wav_empty.
  - apply Nat.eqb_neq in E0. destruct (Nat.odd (length pcm_data)) eqn:Eo.
    + apply pcm_to_wav_odd; assumption.
    + assert (He : Nat.even (length pcm_data) = true)
        by (rewrite <- Nat.negb_odd, Eo; reflexivity).
      destruct (Z.ltb_spec 4294967295 (36 + Z.of_nat (length pcm_data))).
      * apply pcm_to_wav_overflow; try assumption.
        rewrite (even_length_half pcm_data He), Nat2Z.inj_mul, Z.mul_comm, Z.mod_mul by lia.
        reflexivity.
      * apply pcm_to_wav_ok; try assumption. unfold header_fits. lia.
Qed.

(** ** Theorems *)

(** C8. [pcm_to_wav] at a rate whose header fields fit, on every input:
    empty data is refused with 'no PCM data'; odd-length data fails the
    sample conversion ([struct.error] wrapped twice); even data longer
    than [2^32 - 37] bytes overflows the 32-bit RIFF size ([struct.error]
    wrapped once); anything else is the canonical 44-byte header
    followed by the received bytes, rewound to offset 0. *)
Theorem pcm_to_wav_spec (pcm_data : bytes) (sample_rate : Z) :
  (0 < sample_rate)%Z -> (2 * sample_rate <= 4294967295)%Z ->
  pcm_to_wav pcm_data sample_rate
  = if length pcm_data =? 0 then Exc (ValueError NoPcmData)
    else if Nat.odd (length pcm_data) then
      Exc (ValueError (WavConversionFailed (ValueError (PcmConversionFailed StructError))))
    else if (4294967295 <? 36 + Z.of_nat (length pcm_data))%Z then
      Exc (ValueError (WavConversionFailed StructError))
    else Ok (mk_bytesio (wav_header 1 2 sample_rate (Z.of_nat (length pcm_data)) ++ pcm_data) 0).
Proof. apply pcm_to_wav_cases. Qed.

(** C9. A non-positive sample rate makes [setframerate] raise 'bad frame
    rate'; the [with] statement then calls [close], whose
    [_ensure_header_written] raises 'sampling rate not specified', and
    that second [wave.Error] replaces the first in the message. *)
Theorem pcm_to_wav_bad_rate (pcm_data : bytes) (sample_rate : Z) :
  length pcm_data <> 0 -> (sample_rate <= 0)%Z ->
  pcm_to_wav pcm_data sample_rate
  = Exc (ValueError (WavConversionFailed (WaveError WFrameRateNotSpecified))).
Proof.
  intros Hne Hr. unfold pcm_to_wav.
  replace (length pcm_data =? 0) with false by (symmetry; apply Nat.eqb_neq, Hne).
  cbv beta zeta. unfold sbind at 1, with_close, write_body.
  py_step setnchannels_ok. py_step setsampwidth_ok.
  unfold setframerate, check_not_started, sbind at 1 2, get_w. cbn -[close].
  replace (sample_rate <=? 0)%Z with true by (symmetry; apply Z.leb_le, Hr).
  reflexivity.
Qed.

(** ** Witnesses *)

Lemma pcm_to_wav_spec_witness :
  (0 < 48000)%Z /\ (2 * 48000 <= 4294967295)%Z
  /\ pcm_to_wav [Byte.x01; Byte.x02] 48000
     = Ok (mk_bytesio (wav_header 1 2 48000 2 ++ [Byte.x01; Byte.x02]) 0).
Proof.
  split; [lia | split; [lia |]].
  rewrite (pcm_to_wav_spec [Byte.x01; Byte.x02] 48000) by lia. reflexivity.
Defined.

Lemma pcm_to_wav_bad_rate_witness :
  length [Byte.x00; Byte.x00] <> 0 /\ (0 <= 0)%Z
  /\ pcm_to_wav [Byte.x00; Byte.x00] 0
     = Exc (ValueError (WavConversionFailed (WaveError WFrameRateNotSpecified))).
Proof.
  split; [discriminate | split; [lia |]].
  apply pcm_to_wav_bad_rate; [discriminate | lia].
Defined.
End PcmToWav.
