(* ===== verification/Chunk.v ===== *)
(** * [wave._Chunk] (CPython 3.11) over any file-like object.

    [_Chunk(file)] only needs [file.read], [file.tell] and [file.seek]:
    the RIFF chunk of a WAV file reads from the [io.BytesIO], and every
    sub-chunk reads from the RIFF chunk.  That duck-typed interface is the
    class [PyFile]; [bytesio_file] is the BytesIO instance and [chunk_file]
    makes a chunk over any [PyFile] a [PyFile] again, so that the nesting
    of the source is the nesting of the instances.

    Not modelled: [_Chunk.close] (wave never closes its chunks) and the
    non-seekable fallback of [skip] (both file types here can tell and
    seek); [align] is [True] and [inclheader] [False] as in wave. *)

From Stdlib Require Import ZArith String.
From stdpp Require Import base list decidable.
From S2P Require Import Prelude Struct BytesIO.
Import PyStruct BytesIO.

Module Chunk.

(** The file protocol [_Chunk] relies on. *)
Class PyFile (F : Type) := {
  f_read : Z -> PyM F bytes;          (* read(size) *)
  f_tell : PyM F Z;                   (* tell() *)
  f_seek : Z -> nat -> PyM F unit     (* seek(pos, whence) *)
}.

#[export] Instance bytesio_file : PyFile bytesio := {
  f_read n := fun f => let '(b, f') := read n f in (Ok b, f');
  f_tell := fun f => (Ok (Z.of_nat (tell f)), f);
  f_seek pos whence := fun f =>
    match seek pos whence f with Ok f' => (Ok tt, f') | Exc e => (Exc e, f) end
}.

(** The fields of a [_Chunk] object. *)
Record chunk : Type := mk_chunk {
  ck_name : bytes;       (* chunkname *)
  ck_size : Z;           (* chunksize *)
  ck_size_read : Z;      (* size_read *)
  ck_offset : Z          (* offset: file.tell() after the header *)
}.

Definition set_size_read (n : Z) (c : chunk) : chunk :=
  mk_chunk (ck_name c) (ck_size c) n (ck_offset c).

Section OverFile.
Context {F : Type} `{PyFile F}.

(** Run an operation of the underlying file, keeping the chunk. *)
Definition lift_file {A} (m : PyM F A) : PyM (chunk * F) A := fun s =>
  let '(r, f') := m (snd s) in (r, (fst s, f')).

Definition get_c : PyM (chunk * F) chunk := fun s => (Ok (fst s), s).
Definition put_c (c : chunk) : PyM (chunk * F) unit := fun s => (Ok tt, (c, snd s)).

(** [struct.unpack_from('<L', file.read(4))[0]]; a short read is a
    [struct.error], turned into [EOFError] by the constructor. *)
Definition unpack_L_eof (b : bytes) : pyres Z :=
  match unpack_from [FL] b with
  | Ok [VInt z] => Ok z
  | Ok _ => Exc StructError
  | Exc _ => Exc EOFError
  end.

(** [_Chunk.__init__(file, bigendian=False)]. *)
Definition chunk_open : PyM F chunk :=
  let! name := f_read 4 in
  if length name <? 4 then sraise EOFError else
  let! szb := f_read 4 in
  let! size := slift (unpack_L_eof szb) in
  let! off := f_tell in
  sret (mk_chunk name size 0 off).

(** [_Chunk.read(size)], with the pad byte of an odd-sized chunk. *)
Definition ck_read (size : Z) : PyM (chunk * F) bytes :=
  let! c := get_c in
  if (ck_size c <=? ck_size_read c)%Z then sret [] else
  let rest := (ck_size c - ck_size_read c)%Z in
  let size := if (size <? 0)%Z then rest else Z.min size rest in
  let! data := lift_file (f_read size) in
  let c1 := set_size_read (ck_size_read c + Z.of_nat (length data)) c in
  put_c c1 ;;
  if (ck_size_read c1 =? ck_size c1)%Z && Z.odd (ck_size c1) then
    let! dummy := lift_file (f_read 1) in
    put_c (set_size_read (ck_size_read c1 + Z.of_nat (length dummy)) c1) ;;
    sret data
  else sret data.

Definition ck_tell : PyM (chunk * F) Z := fun s => (Ok (ck_size_read (fst s)), s).

(** [_Chunk.seek(pos, whence)]: only inside the chunk. *)
Definition ck_seek (pos : Z) (whence : nat) : PyM (chunk * F) unit :=
  let! c := get_c in
  let pos := match whence with
             | 1 => (pos + ck_size_read c)%Z
             | 2 => (pos + ck_size c)%Z
             | _ => pos
             end in
  if (pos <? 0)%Z || (ck_size c <? pos)%Z then sraise RuntimeError else
  lift_file (f_seek (ck_offset c + pos) 0) ;;
  put_c (set_size_read pos c).

(** [_Chunk.skip()] on a seekable file. *)
Definition ck_skip : PyM (chunk * F) unit :=
  let! c := get_c in
  let n := (ck_size c - ck_size_read c)%Z in
  let n := if Z.odd (ck_size c) then (n + 1)%Z else n in
  lift_file (f_seek n 1) ;;
  put_c (set_size_read (ck_size_read c + n) c).
End OverFile.

(** A chunk over a file is a file. *)
#[export] Instance chunk_file {F : Type} `{PyFile F} : PyFile (chunk * F) := {
  f_read := ck_read;
  f_tell := ck_tell;
  f_seek := ck_seek
}.

(** ** Step lemmas: the BytesIO instance *)

Lemma bio_read (B : bytes) (p n : nat) :
  p + n <= length B ->
  f_read (Z.of_nat n) (mk_bytesio B p) = (Ok (take n (drop p B)), mk_bytesio B (p + n)).
Proof.
  intros Hn. cbn -[Z.of_nat].
  replace (Z.of_nat n <? 0)%Z with false by (symmetry; apply Z.ltb_ge; lia).
  rewrite Nat2Z.id. replace (Nat.min n (length B - p)) with n by lia. reflexivity.
Qed.

Lemma bio_tell (B : bytes) (p : nat) :
  f_tell (mk_bytesio B p) = (Ok (Z.of_nat p), mk_bytesio B p).
Proof. reflexivity. Qed.

Lemma bio_seek (B : bytes) (p : nat) (z : Z) :
  (0 <= z)%Z -> f_seek z 0 (mk_bytesio B p) = (Ok tt, mk_bytesio B (Z.to_nat z)).
Proof.
  intros Hz. cbn. replace (z <? 0)%Z with false by (symmetry; apply Z.ltb_ge; lia).
  reflexivity.
Qed.

(** ** Step lemmas: a chunk over any file *)

Section Steps.
Context {F : Type} `{PyFile F}.

(** Reading inside a chunk of even size (no pad byte) passes the read
    through to the file and advances [size_read]. *)
Lemma ck_read_step (c : chunk) (s s' : F) (n : Z) (seg : bytes) :
  (0 <= n)%Z -> (ck_size_read c < ck_size c)%Z -> (ck_size_read c + n <= ck_size c)%Z ->
  Z.even (ck_size c) = true ->
  f_read n s = (Ok seg, s') -> Z.of_nat (length seg) = n ->
  ck_read n (c, s) = (Ok seg, (set_size_read (ck_size_read c + n) c, s')).
Proof.
  intros Hn Hlt Hle Hev Hr Hl. unfold ck_read, sbind, get_c, put_c, sret, lift_file. cbn.
  replace (ck_size c <=? ck_size_read c)%Z with false by (symmetry; apply Z.leb_gt; lia).
  replace (n <? 0)%Z with false by (symmetry; apply Z.ltb_ge; lia).
  rewrite Z.min_l by lia. cbn [fst snd]. rewrite Hr. cbn. rewrite Hl.
  rewrite <- Z.negb_even, Hev, andb_false_r. reflexivity.
Qed.

(** A read of [n] bytes is clipped to what is left in the chunk. *)
Lemma ck_read_clip (c : chunk) (s s' : F) (n : Z) (seg : bytes) :
  let m := Z.min n (ck_size c - ck_size_read c) in
  (0 <= n)%Z -> (ck_size_read c < ck_size c)%Z -> Z.even (ck_size c) = true ->
  f_read m s = (Ok seg, s') -> Z.of_nat (length seg) = m ->
  ck_read n (c, s) = (Ok seg, (set_size_read (ck_size_read c + m) c, s')).
Proof.
  intros m Hn Hlt Hev Hr Hl. unfold ck_read, sbind, get_c, put_c, sret, lift_file. cbn.
  replace (ck_size c <=? ck_size_read c)%Z with false by (symmetry; apply Z.leb_gt; lia).
  replace (n <? 0)%Z with false by (symmetry; apply Z.ltb_ge; lia).
  fold m. cbn [fst snd]. rewrite Hr. cbn. rewrite Hl.
  rewrite <- Z.negb_even, Hev, andb_false_r. reflexivity.
Qed.

(** At the end of the chunk [read] returns nothing and changes nothing. *)
Lemma ck_read_end (c : chunk) (s : F) (n : Z) :
  (ck_size c <= ck_size_read c)%Z -> ck_read n (c, s) = (Ok [], (c, s)).
Proof.
  intros Hend. unfold ck_read, sbind, get_c, sret. cbn.
  replace (ck_size c <=? ck_size_read c)%Z with true by (symmetry; apply Z.leb_le; lia).
  reflexivity.
Qed.

Lemma ck_tell_step (c : chunk) (s : F) : ck_tell (c, s) = (Ok (ck_size_read c), (c, s)).
Proof. reflexivity. Qed.

(** [chunk_open] on a file that yields a 4-byte name and a 4-byte
    little-endian size. *)
Lemma chunk_open_step (s s1 s2 : F) (name : bytes) (sz off : Z) :
  f_read 4 s = (Ok name, s1) -> length name = 4 ->
  f_read 4 s1 = (Ok (le_bytes 4 sz), s2) -> (0 <= sz <= 4294967295)%Z ->
  f_tell s2 = (Ok off, s2) ->
  chunk_open s = (Ok (mk_chunk name sz 0 off), s2).
Proof.
  intros H1 Hl H2 Hsz H3. unfold chunk_open, sbind, slift, sret, sraise.
  rewrite H1, Hl. cbn [Nat.ltb Nat.leb]. rewrite H2.
  unfold unpack_L_eof. rewrite unpack_from_ok by (rewrite length_le_bytes; simpl; lia).
  cbn [unpack_fields unpack_field code_size]. rewrite take_ge by (rewrite length_le_bytes; lia).
  rewrite le_value_bytes_small by (simpl; lia). rewrite H3. reflexivity.
Qed.

(** [seek(pos, 1)] inside the chunk. *)
Lemma ck_seek_rel_step (c : chunk) (s s' : F) (n : Z) :
  (0 <= n + ck_size_read c <= ck_size c)%Z ->
  f_seek (ck_offset c + (n + ck_size_read c)) 0 s = (Ok tt, s') ->
  ck_seek n 1 (c, s) = (Ok tt, (set_size_read (n + ck_size_read c) c, s')).
Proof.
  intros Hn Hs. unfold ck_seek, sbind, get_c, put_c, sraise, lift_file. cbn.
  replace (n + ck_size_read c <? 0)%Z with false by (symmetry; apply Z.ltb_ge; lia).
  replace (ck_size c <? n + ck_size_read c)%Z with false by (symmetry; apply Z.ltb_ge; lia).
  cbn. rewrite Hs. reflexivity.
Qed.
End Steps.
End Chunk.
