(* ===== verification/WaveRead.v ===== *)
(** * [wave.Wave_read] (CPython 3.11): opening a WAV file and reading frames.

    [initfp] follows [Wave_read.initfp]: the RIFF chunk over the BytesIO,
    the 'WAVE' form type, then a loop over the sub-chunks (each a [_Chunk]
    over the RIFF chunk) that reads the 'fmt ' chunk and stops at the
    'data' chunk.  [readframes] follows [Wave_read.readframes].  The reader
    keeps the RIFF chunk and the data chunk, whose positions move when
    frames are read; the BytesIO is shared and threaded beside it.

    The loop is given one iteration per byte of the buffer plus one; every
    iteration that continues has read an 8-byte chunk header, so the fuel
    is never the reason the loop stops on the files this program builds
    (see [WaveRead.initfp_wav]). *)

From Stdlib Require Import ZArith String.
From stdpp Require Import base list decidable.
From S2P Require Import Prelude Struct BytesIO WaveWrite Chunk.
Import PyStruct BytesIO WaveWrite Chunk.

Module WaveRead.

(** What [_read_fmt_chunk] stores. *)
Record fmt_info : Type := mk_fmt {
  fi_nchannels : Z; fi_framerate : Z; fi_sampwidth : Z; fi_framesize : Z }.

(** The fields of an open [Wave_read]. *)
Record wave_read : Type := mk_wr {
  wr_riff : chunk;             (* self._file *)
  wr_fmt : fmt_info;
  wr_data : chunk;             (* self._data_chunk *)
  wr_nframes : Z;
  wr_soundpos : Z;
  wr_data_seek_needed : bool }.

(** State of the RIFF chunk over the BytesIO, and of a sub-chunk. *)
Abbreviation RS := (chunk * bytesio)%type.
Abbreviation IS := (chunk * RS)%type.

(** [struct.unpack_from] of integer fields, [struct.error] read as
    [EOFError] (the [except struct.error: raise EOFError] of wave). *)
Definition unpack_ints_eof (f : list fmt_code) (b : bytes) : pyres (list Z) :=
  match unpack_from f b with
  | Ok vs => Ok (omap (fun v => match v with VInt z => Some z | VBytes _ => None end) vs)
  | Exc _ => Exc EOFError
  end.

Definition _read_fmt_chunk : PyM IS fmt_info :=
  let! b := ck_read 14 in
  let! hdr := slift (unpack_ints_eof [FH; FH; FL; FL; FH] b) in
  match hdr with
  | [wFormatTag; nchannels; framerate; _; _] =>
      if (wFormatTag =? WAVE_FORMAT_PCM)%Z then
        let! b2 := ck_read 2 in
        let! sw := slift (unpack_ints_eof [FH] b2) in
        match sw with
        | [bits] =>
            let sampwidth := ((bits + 7) / 8)%Z in
            if (sampwidth =? 0)%Z then sraise (WaveError WBadSampleWidth)
            else if (nchannels =? 0)%Z then sraise (WaveError WBadNumChannels)
            else sret (mk_fmt nchannels framerate sampwidth (nchannels * sampwidth))
        | _ => sraise StructError
        end
      else sraise (WaveError (WUnknownFormat wFormatTag))
  | _ => sraise StructError
  end.

(** Run an operation of a sub-chunk [ck] over the RIFF chunk. *)
Definition with_sub {A} (ck : chunk) (m : PyM IS A) : PyM RS A := fun s =>
  let '(r, (_, s')) := m (ck, s) in (r, s').

(** The [while 1:] loop of [initfp]: [EOFError] from the sub-chunk
    constructor breaks out of it, and the check after the loop then
    raises 'fmt chunk and/or data chunk missing'.  Every iteration that
    continues reads an 8-byte chunk header, so [initfp] gives it one
    iteration per byte of the buffer plus one; running out of fuel also
    raises 'chunks missing', a case the theorems never reach
    ([initfp_wav] shows the loop returns at the data chunk). *)
Fixpoint chunk_loop (fuel : nat) (fmt : option fmt_info) : PyM RS (fmt_info * chunk * Z) :=
  match fuel with
  | O => sraise (WaveError WChunksMissing)
  | S fuel' => fun s =>
    match chunk_open s with
    | (Exc EOFError, s1) => (Exc (WaveError WChunksMissing), s1)
    | (Exc e, s1) => (Exc e, s1)
    | (Ok ck, s1) =>
        if bool_decide (ck_name ck = tag "fmt ") then
          match with_sub ck (let! fi := _read_fmt_chunk in ck_skip ;; sret fi) s1 with
          | (Ok fi, s2) => chunk_loop fuel' (Some fi) s2
          | (Exc e, s2) => (Exc e, s2)
          end
        else if bool_decide (ck_name ck = tag "data") then
          match fmt with
          | None => (Exc (WaveError WDataBeforeFmt), s1)
          | Some fi =>
              match py_floordiv (ck_size ck) (fi_framesize fi) with
              | Ok n => (Ok (fi, ck, n), s1)
              | Exc e => (Exc e, s1)
              end
          end
        else
          match with_sub ck ck_skip s1 with
          | (Ok _, s2) => chunk_loop fuel' fmt s2
          | (Exc e, s2) => (Exc e, s2)
          end
    end
  end.

(** [wave.open(f, 'rb')]: [Wave_read.initfp]. *)
Definition initfp : PyM bytesio wave_read := fun f =>
  match chunk_open f with
  | (Exc e, f1) => (Exc e, f1)
  | (Ok riff, f1) =>
      if negb (bool_decide (ck_name riff = tag "RIFF")) then (Exc (WaveError WNotRiff), f1) else
      match ck_read 4 (riff, f1) with
      | (Exc e, (_, f2)) => (Exc e, f2)
      | (Ok form, (riff2, f2)) =>
          if negb (bool_decide (form = tag "WAVE")) then (Exc (WaveError WNotWave), f2) else
          match chunk_loop (S (length (bio_buf f2))) None (riff2, f2) with
          | (Ok (fi, dck, n), (riff3, f3)) => (Ok (mk_wr riff3 fi dck n 0 false), f3)
          | (Exc e, (_, f3)) => (Exc e, f3)
          end
      end
  end.

Definition getnchannels (w : wave_read) : Z := fi_nchannels (wr_fmt w).
Definition getsampwidth (w : wave_read) : Z := fi_sampwidth (wr_fmt w).
Definition getframerate (w : wave_read) : Z := fi_framerate (wr_fmt w).
Definition getnframes (w : wave_read) : Z := wr_nframes w.

(** Run an operation of the data chunk (whose file is the RIFF chunk). *)
Definition on_data {A} (m : PyM IS A) : PyM (wave_read * bytesio) A := fun s =>
  let w := fst s in
  let '(r, (d', (riff', f'))) := m (wr_data w, (wr_riff w, snd s)) in
  (r, (mk_wr riff' (wr_fmt w) d' (wr_nframes w) (wr_soundpos w) (wr_data_seek_needed w), f')).

Definition get_r : PyM (wave_read * bytesio) wave_read := fun s => (Ok (fst s), s).
Definition modify_r (g : wave_read -> wave_read) : PyM (wave_read * bytesio) unit :=
  fun s => (Ok tt, (g (fst s), snd s)).

Definition set_soundpos (p : Z) (w : wave_read) : wave_read :=
  mk_wr (wr_riff w) (wr_fmt w) (wr_data w) (wr_nframes w) p (wr_data_seek_needed w).
Definition clear_seek_needed (w : wave_read) : wave_read :=
  mk_wr (wr_riff w) (wr_fmt w) (wr_data w) (wr_nframes w) (wr_soundpos w) false.

(** [Wave_read.readframes(nframes)] on a little-endian host. *)
Definition readframes (nframes : Z) : PyM (wave_read * bytesio) bytes :=
  let! w := get_r in
  (if wr_data_seek_needed w then
     on_data (ck_seek 0 0) ;;
     let pos := (wr_soundpos w * fi_framesize (wr_fmt w))%Z in
     (if negb (pos =? 0)%Z then on_data (ck_seek pos 0) else sret tt) ;;
     modify_r clear_seek_needed
   else sret tt) ;;
  if (nframes =? 0)%Z then sret [] else
  let! data := on_data (ck_read (nframes * fi_framesize (wr_fmt w))) in
  let! w' := get_r in
  let! k := slift (py_floordiv (Z.of_nat (length data))
                               (fi_nchannels (wr_fmt w') * fi_sampwidth (wr_fmt w'))) in
  modify_r (set_soundpos (wr_soundpos w' + k)) ;;
  sret data.

(** The 14 bytes [_read_fmt_chunk] unpacks first. *)
Definition fmt14 (nc sw fr : Z) : bytes :=
  le_bytes 2 WAVE_FORMAT_PCM ++ le_bytes 2 nc ++ le_bytes 4 fr
  ++ le_bytes 4 (nc * fr * sw) ++ le_bytes 2 (nc * sw).

(** One iteration of the chunk loop. *)
Lemma chunk_loop_S (fuel : nat) (fmt : option fmt_info) (s : RS) :
  chunk_loop (S fuel) fmt s =
    match chunk_open s with
    | (Exc EOFError, s1) => (Exc (WaveError WChunksMissing), s1)
    | (Exc e, s1) => (Exc e, s1)
    | (Ok ck, s1) =>
        if bool_decide (ck_name ck = tag "fmt ") then
          match with_sub ck (let! fi := _read_fmt_chunk in ck_skip ;; sret fi) s1 with
          | (Ok fi, s2) => chunk_loop fuel (Some fi) s2
          | (Exc e, s2) => (Exc e, s2)
          end
        else if bool_decide (ck_name ck = tag "data") then
          match fmt with
          | None => (Exc (WaveError WDataBeforeFmt), s1)
          | Some fi =>
              match py_floordiv (ck_size ck) (fi_framesize fi) with
              | Ok n => (Ok (fi, ck, n), s1)
              | Exc e => (Exc e, s1)
              end
          end
        else
          match with_sub ck ck_skip s1 with
          | (Ok _, s2) => chunk_loop fuel fmt s2
          | (Exc e, s2) => (Exc e, s2)
          end
    end.
Proof. reflexivity. Qed.

(** ** The bytes of the header at their offsets *)

Lemma wav_header_segs (nc sw fr dl : Z) (rest : bytes) :
  let B := wav_header nc sw fr dl ++ rest in
  take 4 (drop 0 B) = tag "RIFF" /\ take 4 (drop 4 B) = le_bytes 4 (36 + dl)
  /\ take 4 (drop 8 B) = tag "WAVE" /\ take 4 (drop 12 B) = tag "fmt "
  /\ take 4 (drop 16 B) = le_bytes 4 16 /\ take 14 (drop 20 B) = fmt14 nc sw fr
  /\ take 2 (drop 34 B) = le_bytes 2 (sw * 8) /\ take 4 (drop 36 B) = tag "data"
  /\ take 4 (drop 40 B) = le_bytes 4 dl.
Proof.
  unfold wav_header, fmt14. rewrite !le_bytes_2, !le_bytes_4.
  repeat split; reflexivity.
Qed.

Lemma length_wav_file (nc sw fr dl : Z) (rest : bytes) :
  length (wav_header nc sw fr dl ++ rest) = 44 + length rest.
Proof. rewrite length_app, length_wav_header. reflexivity. Qed.

Lemma unpack_fmt14 (nc sw fr : Z) :
  (0 <= nc <= 65535)%Z -> (0 <= fr <= 4294967295)%Z -> (0 <= nc * fr * sw <= 4294967295)%Z ->
  (0 <= nc * sw <= 65535)%Z ->
  unpack_ints_eof [FH; FH; FL; FL; FH] (fmt14 nc sw fr) = Ok [1; nc; fr; nc * fr * sw; nc * sw]%Z.
Proof.
  intros H1 H2 H3 H4. unfold unpack_ints_eof, fmt14.
  rewrite unpack_from_ok by (rewrite !length_app, !length_le_bytes; simpl; lia).
  rewrite !le_bytes_2, !le_bytes_4. cbn -[le_value byte_of_Z Z.div Z.mul].
  rewrite !le_value_2, !le_value_4, !Z.mod_small by (unfold WAVE_FORMAT_PCM; lia).
  reflexivity.
Qed.

Lemma unpack_bits (sw : Z) :
  (0 <= sw * 8 <= 65535)%Z -> unpack_ints_eof [FH] (le_bytes 2 (sw * 8)) = Ok [sw * 8]%Z.
Proof.
  intros H. unfold unpack_ints_eof.
  rewrite unpack_from_ok by (rewrite length_le_bytes; simpl; lia).
  rewrite le_bytes_2. cbn -[le_value byte_of_Z Z.div Z.mul].
  rewrite le_value_2, Z.mod_small by lia. reflexivity.
Qed.

(** A read of [n] bytes at offset [p] of the buffer. *)
Lemma bio_read_eq (B seg : bytes) (p n : nat) :
  p + n <= length B -> take n (drop p B) = seg ->
  f_read (Z.of_nat n) (mk_bytesio B p) = (Ok seg, mk_bytesio B (p + n)).
Proof. intros Hn <-. apply bio_read, Hn. Qed.

(** ** Reading back the header [pcm_to_wav] writes *)

Section HeaderRead.
Context (nc sw fr dl : Z) (rest : bytes).
Hypothesis Hnc : (1 <= nc)%Z.
Hypothesis Hsw : (1 <= sw)%Z.
Hypothesis Hfits : fmt_fits nc sw fr dl.
Hypothesis Hev : Z.even dl = true.

Local Abbreviation B := (wav_header nc sw fr dl ++ rest).
Local Abbreviation riff r := (mk_chunk (tag "RIFF") (36 + dl) r 8).

Local Ltac seg :=
  let Hs := fresh in
  pose proof (wav_header_segs nc sw fr dl rest) as Hs; cbv zeta in Hs;
  destruct_and! Hs; eassumption.

Local Ltac fits := unfold fmt_fits in Hfits; lia.

Local Ltac rd p n :=
  apply (bio_read_eq B _ p n); [rewrite length_wav_file; lia | seg].

Lemma even_riff : Z.even (36 + dl) = true.
Proof. rewrite Z.even_add, Hev. reflexivity. Qed.

Lemma riff_open : chunk_open (mk_bytesio B 0) = (Ok (riff 0), mk_bytesio B 8).
Proof.
  apply (chunk_open_step _ (mk_bytesio B 4)).
  - rd 0 4.
  - reflexivity.
  - rd 4 4.
  - fits.
  - reflexivity.
Qed.

(** A read of [n] bytes inside the RIFF chunk at [size_read = r], the
    BytesIO being at [p = 8 + r]. *)
Lemma riff_read (r : Z) (p n : nat) (seg : bytes) :
  Z.of_nat p = (8 + r)%Z -> (0 <= r)%Z -> (r < 36 + dl)%Z -> (r + Z.of_nat n <= 36 + dl)%Z ->
  p + n <= length B -> take n (drop p B) = seg ->
  ck_read (Z.of_nat n) (riff r, mk_bytesio B p)
  = (Ok seg, (riff (r + Z.of_nat n), mk_bytesio B (p + n))).
Proof.
  intros Hp H0 H1 H2 H3 H4.
  apply (ck_read_step (riff r)); cbn [ck_size ck_size_read]; try lia.
  - apply even_riff.
  - apply bio_read_eq; assumption.
  - rewrite <- H4, length_take, length_drop. lia.
Qed.

Local Ltac rr r p n :=
  apply (riff_read r p n); [lia | lia | fits | fits | rewrite length_wav_file; simpl; lia | seg].

Lemma riff_form : ck_read 4 (riff 0, mk_bytesio B 8) = (Ok (tag "WAVE"), (riff 4, mk_bytesio B 12)).
Proof. rr 0%Z 8 4. Qed.

Lemma fmt_open :
  chunk_open (riff 4, mk_bytesio B 12)
  = (Ok (mk_chunk (tag "fmt ") 16 0 12), (riff 12, mk_bytesio B 20)).
Proof.
  apply (chunk_open_step _ (riff 8, mk_bytesio B 16)).
  - rr 4%Z 12 4.
  - reflexivity.
  - rr 8%Z 16 4.
  - lia.
  - reflexivity.
Qed.

Lemma data_open :
  chunk_open (riff 28, mk_bytesio B 36)
  = (Ok (mk_chunk (tag "data") dl 0 36), (riff 36, mk_bytesio B 44)).
Proof.
  apply (chunk_open_step _ (riff 32, mk_bytesio B 40)).
  - rr 28%Z 36 4.
  - reflexivity.
  - rr 32%Z 40 4.
  - fits.
  - reflexivity.
Qed.

Local Abbreviation fmtck q := (mk_chunk (tag "fmt ") 16 q 12).

(** A read of [n] bytes inside the 'fmt ' chunk, itself read through the
    RIFF chunk. *)
Lemma fmt_read (q r : Z) (p n : nat) (seg : bytes) :
  r = (12 + q)%Z -> Z.of_nat p = (20 + q)%Z -> (0 <= q)%Z -> (q + Z.of_nat n <= 16)%Z ->
  (q < 16)%Z -> take n (drop p B) = seg ->
  ck_read (Z.of_nat n) (fmtck q, (riff r, mk_bytesio B p))
  = (Ok seg, (fmtck (q + Z.of_nat n), (riff (r + Z.of_nat n), mk_bytesio B (p + n)))).
Proof.
  intros Hr Hp H0 H1 H2 H3.
  apply (ck_read_step (fmtck q)); cbn [ck_size ck_size_read]; try lia; [reflexivity | |].
  - rr r p n.
  - rewrite <- H3, length_take, length_drop, length_wav_file. lia.
Qed.

Lemma read_fmt_ok :
  _read_fmt_chunk (fmtck 0, (riff 12, mk_bytesio B 20))
  = (Ok (mk_fmt nc fr sw (nc * sw)), (fmtck 16, (riff 28, mk_bytesio B 36))).
Proof.
  unfold _read_fmt_chunk.
  erewrite sbind_ok by (apply (fmt_read 0 12 20 14); [lia | lia | lia | lia | lia | seg]).
  erewrite sbind_ok by (unfold slift; rewrite unpack_fmt14 by fits; reflexivity).
  cbn -[ck_read Z.of_nat]. 
  erewrite sbind_ok by (apply (fmt_read 14 26 34 2); [lia | lia | lia | lia | lia | seg]).
  erewrite sbind_ok by (unfold slift; rewrite unpack_bits by fits; reflexivity).
  cbn -[Z.of_nat Z.div Z.mul].
  replace ((sw * 8 + 7) / 8)%Z with sw
    by (rewrite Z.add_comm, Z.div_add by lia; reflexivity).
  replace (sw =? 0)%Z with false by (symmetry; apply Z.eqb_neq; lia).
  replace (nc =? 0)%Z with false by (symmetry; apply Z.eqb_neq; lia).
  reflexivity.
Qed.

Lemma skip_fmt_ok :
  ck_skip (fmtck 16, (riff 28, mk_bytesio B 36))
  = (Ok tt, (fmtck 16, (riff 28, mk_bytesio B 36))).
Proof.
  unfold ck_skip, sbind, get_c, put_c, lift_file. cbn -[ck_seek].
  rewrite (ck_seek_rel_step (riff 28) _ (mk_bytesio B 36)).
  - reflexivity.
  - cbn [ck_size ck_size_read]. fits.
  - apply bio_seek. cbn [ck_offset ck_size_read]. lia.
Qed.

Lemma fmt_body_ok :
  with_sub (fmtck 0) (let! fi := _read_fmt_chunk in ck_skip ;; sret fi) (riff 12, mk_bytesio B 20)
  = (Ok (mk_fmt nc fr sw (nc * sw)), (riff 28, mk_bytesio B 36)).
Proof.
  unfold with_sub. erewrite sbind_ok by apply read_fmt_ok.
  erewrite sbind_ok by apply skip_fmt_ok. reflexivity.
Qed.

(** Opening the file [pcm_to_wav] builds: the RIFF chunk, the 'fmt '
    chunk and the 'data' chunk header are read, and the BytesIO is left
    at offset 44, the first data byte. *)
Lemma initfp_wav :
  initfp (mk_bytesio B 0)
  = (Ok (mk_wr (riff 36) (mk_fmt nc fr sw (nc * sw)) (mk_chunk (tag "data") dl 0 36)
               (dl / (nc * sw)) 0 false),
     mk_bytesio B 44).
Proof.
  unfold initfp. rewrite riff_open. cbv beta iota.
  rewrite bool_decide_eq_true_2 by reflexivity. cbv beta iota.
  rewrite riff_form. cbv beta iota.
  rewrite bool_decide_eq_true_2 by reflexivity. cbn [negb bio_buf].
  rewrite length_wav_file, chunk_loop_S, fmt_open. cbv beta iota.
  rewrite bool_decide_eq_true_2 by reflexivity.
  rewrite fmt_body_ok. replace (44 + length rest) with (S (43 + length rest)) by lia.
  rewrite chunk_loop_S.
  rewrite data_open. cbv beta iota.
  rewrite bool_decide_eq_false_2 by (cbn; congruence).
  rewrite bool_decide_eq_true_2 by reflexivity.
  unfold py_floordiv. cbn [fi_framesize ck_size].
  replace (nc * sw =? 0)%Z with false by (symmetry; apply Z.eqb_neq; nia).
  reflexivity.
Qed.
End HeaderRead.

(** ** Theorems *)

(** C7. The reader reads back what the writer wrote: opening a buffer that
    starts with [wav_header nc sw fr dl] (even data size, fields within
    their [struct] ranges) gives [nc] channels, [sw]-byte samples, [fr]
    Hz and [dl / (nc * sw)] frames, and leaves the BytesIO at offset 44,
    the first data byte, whatever follows the header. *)
Theorem wav_header_roundtrip (nc sw fr dl : Z) (rest : bytes) :
  (1 <= nc)%Z -> (1 <= sw)%Z -> fmt_fits nc sw fr dl -> Z.even dl = true ->
  exists wr, initfp (mk_bytesio (wav_header nc sw fr dl ++ rest) 0)
             = (Ok wr, mk_bytesio (wav_header nc sw fr dl ++ rest) 44)
    /\ getnchannels wr = nc /\ getsampwidth wr = sw /\ getframerate wr = fr
    /\ getnframes wr = (dl / (nc * sw))%Z.
Proof.
  intros Hnc Hsw Hf Hev. eexists. rewrite initfp_wav by assumption.
  split; [reflexivity|]. repeat split.
Qed.

(** ** Witnesses *)

Lemma wav_header_roundtrip_witness :
  fmt_fits 1 2 48000 4 /\ Z.even 4 = true
  /\ exists wr, initfp (mk_bytesio (wav_header 1 2 48000 4 ++ [Byte.x01; Byte.x02; Byte.x03; Byte.x04]) 0)
                = (Ok wr, mk_bytesio (wav_header 1 2 48000 4 ++ [Byte.x01; Byte.x02; Byte.x03; Byte.x04]) 44)
       /\ getnchannels wr = 1%Z /\ getsampwidth wr = 2%Z /\ getframerate wr = 48000%Z
       /\ getnframes wr = (4 / (1 * 2))%Z.
Proof.
  assert (Hf : fmt_fits 1 2 48000 4) by (unfold fmt_fits; lia).
  split; [exact Hf | split; [reflexivity |]].
  apply wav_header_roundtrip; [lia | lia | exact Hf | reflexivity].
Defined.
End WaveRead.
