(* ===== verification/Validator.v ===== *)
(** * [debug_wav_info] and the minimum-duration check (the audio validator).

    [debug_wav_info(wav_file)] rewinds the shared BytesIO, opens it with
    [wave.open(.., 'rb')], reads the four header values and returns
    [frames / float(framerate)]; the handler then rejects audio with
    [duration < 0.3].  The duration is the binary64 quotient [fl_div] of
    Binary64.v, as an exact rational, and the literal [0.3] is its binary64
    value, so the comparison is the one Python makes on the two floats. *)

From Stdlib Require Import ZArith QArith String.
From stdpp Require Import base list decidable.
From S2P Require Import Prelude Binary64 Struct BytesIO WaveWrite Chunk WaveRead.
Import Binary64 PyStruct BytesIO WaveWrite Chunk WaveRead.

Module Validator.

(** [debug_wav_info(wav_file)]: [wav_file.seek(0)], then [wave.open]; the
    reader's [close] on leaving the [with] block does not touch the
    BytesIO. *)
Definition debug_wav_info : PyM bytesio Q := fun f =>
  match seek 0 0 f with
  | Exc e => (Exc e, f)
  | Ok f0 =>
      match initfp f0 with
      | (Exc e, f1) => (Exc e, f1)
      | (Ok wr, f1) => (py_truediv (getnframes wr) (getframerate wr), f1)
      end
  end.

(** The binary64 value of the literal [0.3]: 0x3FD3333333333333. *)
Definition MIN_DURATION : Q := 5404319552844595 # 18014398509481984.

(** [duration < 0.3]. *)
Definition too_short (duration : Q) : bool := negb (Qle_bool MIN_DURATION duration).

(** ** Theorems *)

(** On the buffer [pcm_to_wav] builds for PCM data of even length [L] at
    [rate] Hz, [debug_wav_info] returns the duration [(L / 2) / rate]
    seconds rounded to binary64, wherever the BytesIO was positioned, and leaves it at offset
    44. *)
Lemma debug_wav_info_pcm (pcm_data : bytes) (rate : Z) (p : nat) :
  Nat.even (length pcm_data) = true -> (0 < rate)%Z -> (2 * rate <= 4294967295)%Z ->
  (36 + Z.of_nat (length pcm_data) <= 4294967295)%Z ->
  debug_wav_info (mk_bytesio (wav_header 1 2 rate (Z.of_nat (length pcm_data)) ++ pcm_data) p)
  = (Ok (fl_div (Z.of_nat (length pcm_data) / 2) rate),
     mk_bytesio (wav_header 1 2 rate (Z.of_nat (length pcm_data)) ++ pcm_data) 44).
Proof.
  intros He Hr Hr2 Hl. unfold debug_wav_info. rewrite seek_0. cbn [bio_buf].
  rewrite initfp_wav; try lia.
  - unfold py_truediv, getnframes, getframerate. cbn [wr_nframes wr_fmt fi_framerate].
    replace (rate =? 0)%Z with false by (symmetry; apply Z.eqb_neq; lia). reflexivity.
  - unfold fmt_fits. lia.
  - rewrite (even_length_half pcm_data He), Nat2Z.inj_mul, Z.even_mul. reflexivity.
Qed.

(** At 48000 Hz [duration < 0.3] is [frames < 14400]: 14400 / 48000.0 is
    exactly the binary64 0.3, and every other frame count is farther from
    it than the rounding error. *)
Lemma too_short_48k (frames : Z) :
  too_short (fl_div frames 48000) = (frames <? 14400)%Z.
Proof.
  unfold too_short. destruct (Z.lt_trichotomy frames 14400) as [Hlt|[->|Hgt]].
  - replace (frames <? 14400)%Z with true by (symmetry; apply Z.ltb_lt; lia).
    apply negb_true_iff, not_true_iff_false. rewrite Qle_bool_iff. apply Qlt_not_le.
    destruct (Z.le_gt_cases frames 0).
    + eapply Qle_lt_trans; [apply fl_div_nonpos; lia|]. unfold Qlt; cbn. lia.
    + rewrite fl_div_pos_eq by lia.
      eapply Qle_lt_trans; [apply (proj2 (fl_div_pos_bound frames 48000 ltac:(lia) ltac:(lia)))|].
      unfold Qlt, MIN_DURATION, U; cbn [Qnum Qden Qmult]. cbn. lia.
  - vm_compute. reflexivity.
  - replace (frames <? 14400)%Z with false by (symmetry; apply Z.ltb_ge; lia).
    apply negb_false_iff, Qle_bool_iff. rewrite fl_div_pos_eq by lia.
    eapply Qle_trans; [|apply (proj1 (fl_div_pos_bound frames 48000 ltac:(lia) ltac:(lia)))].
    unfold Qle, MIN_DURATION, U; cbn [Qnum Qden Qmult]. cbn. lia.
Qed.

(** C13. The duration [debug_wav_info] reports for the container of [L]
    bytes of PCM at [rate] Hz is [frame_count / float(rate)] with
    [frame_count = L / 2], the binary64 quotient, from any position of the
    BytesIO. *)
Theorem debug_wav_info_duration (pcm_data : bytes) (rate : Z) (p : nat) :
  Nat.even (length pcm_data) = true -> (0 < rate)%Z -> (2 * rate <= 4294967295)%Z ->
  (36 + Z.of_nat (length pcm_data) <= 4294967295)%Z ->
  fst (debug_wav_info (mk_bytesio (wav_header 1 2 rate (Z.of_nat (length pcm_data)) ++ pcm_data) p))
  = Ok (fl_div (Z.of_nat (length pcm_data) / 2) rate).
Proof. intros. rewrite debug_wav_info_pcm by assumption. reflexivity. Qed.

(** C14. At 48000 Hz the minimum-duration check [duration < 0.3], on the
    binary64 duration [frames / 48000.0] and the binary64 literal 0.3,
    rejects exactly the audio of fewer than 14400 frames: 14400 frames
    (whose duration is exactly the float 0.3) pass and 14399 do not. *)
Theorem min_duration_threshold (frames : Z) :
  too_short (fl_div frames 48000) = true <-> (frames < 14400)%Z.
Proof. rewrite too_short_48k. apply Z.ltb_lt. Qed.

(** ** Witnesses *)

Lemma debug_wav_info_duration_witness :
  Nat.even (length (repeat Byte.x00 6)) = true
  /\ fst (debug_wav_info (mk_bytesio (wav_header 1 2 48000 (Z.of_nat (length (repeat Byte.x00 6)))
                                      ++ repeat Byte.x00 6) 7))
     = Ok (fl_div (Z.of_nat (length (repeat Byte.x00 6)) / 2) 48000).
Proof.
  split; [reflexivity |].
  apply debug_wav_info_duration; [reflexivity | lia | lia | cbn; lia].
Defined.
End Validator.
