(* ===== verification/Gateway.v ===== *)
(** * The transcription gateway: [sr.AudioFile], [Recognizer.record] and
    the external recognizer.

    The handler rewinds the BytesIO, opens it as [sr.AudioFile] (which
    opens it once more with [wave.open(.., 'rb')]), records all of it into
    an [AudioData] and sends that to [recognize_google] with the language
    tag.  The recognizer is an external service: it is the class
    [SttProvider], whose only contract is the shape of its answer (a text,
    [UnknownValueError], [RequestError], or any other exception).

    [speech_recognition] is a third-party library: [AudioFile.__enter__]
    is modelled for the WAV path (its AIFF and FLAC fallbacks are taken to
    fail, which they do on a stream that is not AIFF or FLAC, and end in a
    [ValueError]); [record] is modelled without [offset] and [duration],
    as the handler calls it. *)

From Stdlib Require Import ZArith QArith String.
From stdpp Require Import base list decidable.
From S2P Require Import Prelude Binary64 Struct BytesIO WaveWrite PcmToWav Chunk WaveRead Validator.
Import Binary64 PyStruct BytesIO WaveWrite PcmToWav Chunk WaveRead Validator.

Module Gateway.

(** [sr.AudioData(frame_data, sample_rate, sample_width)]. *)
Record audio_data : Type := mk_audio {
  ad_frame_data : bytes; ad_sample_rate : Z; ad_sample_width : Z }.

(** The external recognizer, [Recognizer.recognize_google(audio, language)]. *)
Class SttProvider : Type := {
  recognize_google : audio_data -> string -> pyres string
}.

(** ** [audioop.tomono(fragment, width, 1, 1)]: left + right, saturated. *)

Definition signed_w (w : nat) (bs : bytes) : Z :=
  let u := le_value bs in
  if (u <? 2 ^ (8 * Z.of_nat w - 1))%Z then u else (u - 2 ^ (8 * Z.of_nat w))%Z.

Definition clamp_w (w : nat) (v : Z) : Z :=
  Z.max (- 2 ^ (8 * Z.of_nat w - 1)) (Z.min (2 ^ (8 * Z.of_nat w - 1) - 1) v).

Fixpoint tomono_frames (w : nat) (nframes : nat) (frag : bytes) : bytes :=
  match nframes with
  | O => []
  | S n =>
      le_bytes w (clamp_w w (signed_w w (take w frag) + signed_w w (take w (drop w frag))))
      ++ tomono_frames w n (drop (2 * w) frag)
  end.

Definition tomono (frag : bytes) (w : Z) : pyres bytes :=
  if negb ((1 <=? w) && (w <=? 4))%Z then Exc AudioopError
  else if negb (length frag mod (2 * Z.to_nat w) =? 0) then Exc AudioopError
  else Ok (tomono_frames (Z.to_nat w) (length frag / (2 * Z.to_nat w)) frag).

(** ** [AudioFile] and [record] *)

(** [AudioFile.__enter__]: [wave.open]; then [assert 1 <= nchannels <= 2]
    and [DURATION = FRAME_COUNT / float(SAMPLE_RATE)].  When [wave.open]
    raises [wave.Error] or [EOFError], the library tries [aifc.open] and
    then the external [flac] converter on the rest of the stream; the model
    takes both fallbacks to fail with the unreadable-audio [ValueError].
    On every path of the handlers [wave.open] succeeds (the container is
    the one [pcm_to_wav] wrote, rewound to 0), so the fallbacks are never
    reached there; no theorem depends on this simplification. *)
Definition audiofile_enter : PyM bytesio wave_read := fun f =>
  match initfp f with
  | (Exc (WaveError _), f1) | (Exc EOFError, f1) => (Exc (ValueError AudioFileUnreadable), f1)
  | (Exc e, f1) => (Exc e, f1)
  | (Ok wr, f1) =>
      if negb ((1 <=? getnchannels wr) && (getnchannels wr <=? 2))%Z then (Exc AssertionError, f1)
      else match py_truediv (getnframes wr) (getframerate wr) with
           | Exc e => (Exc e, f1)
           | Ok _ => (Ok wr, f1)
           end
  end.

(** [AudioFileStream.read(size)]: [readframes], then down-mixing to mono. *)
Definition stream_read (size : Z) : PyM (wave_read * bytesio) bytes :=
  let! buffer := readframes size in
  let! w := get_r in
  if (getnchannels w =? 1)%Z then sret buffer
  else slift (tomono buffer (getsampwidth w)).

Definition CHUNK : Z := 4096.

(** The [while True:] loop of [Recognizer.record]: read [CHUNK] frames
    until an empty buffer.  Each continuing iteration consumes at least
    one byte of the BytesIO, so one iteration per byte plus one is
    enough.  When the fuel runs out the frames read so far are returned;
    the theorems never reach that case, since they prove the loop meets the
    empty read first ([record_loop_pcm]). *)
Fixpoint record_loop (fuel : nat) (frames : bytes) : PyM (wave_read * bytesio) bytes :=
  match fuel with
  | O => sret frames
  | S fuel' =>
      let! buffer := stream_read CHUNK in
      if length buffer =? 0 then sret frames
      else record_loop fuel' (frames ++ buffer)
  end.

(** [with sr.AudioFile(wav_file) as source: audio = recognizer.record(source)]. *)
Definition record_audio : PyM bytesio audio_data := fun f =>
  match audiofile_enter f with
  | (Exc e, f1) => (Exc e, f1)
  | (Ok wr, f1) =>
      match record_loop (S (length (bio_buf f1))) [] (wr, f1) with
      | (Ok frames, (_, f2)) =>
          (Ok (mk_audio frames (getframerate wr) (getsampwidth wr)), f2)
      | (Exc e, (_, f2)) => (Exc e, f2)
      end
  end.

(** ** Recording the file [pcm_to_wav] builds *)

Section RecordPcm.
Context (rate : Z) (pcm : bytes).
Hypothesis He : Nat.even (length pcm) = true.
Hypothesis Hr : (0 < rate)%Z.
Hypothesis Hr2 : (2 * rate <= 4294967295)%Z.
Hypothesis Hl : (36 + Z.of_nat (length pcm) <= 4294967295)%Z.

Local Abbreviation L := (Z.of_nat (length pcm)).
Local Abbreviation B := (wav_header 1 2 rate L ++ pcm).
Local Abbreviation riffc r := (mk_chunk (tag "RIFF") (36 + L) r 8).
Local Abbreviation dchunk q := (mk_chunk (tag "data") L q 36).
Local Abbreviation fmt := (mk_fmt 1 rate 2 (1 * 2)).
Local Abbreviation wrq q sp := (mk_wr (riffc (36 + q)) fmt (dchunk q) (L / (1 * 2)) sp false).

Lemma even_L : Z.even L = true.
Proof. rewrite (even_length_half pcm He), Nat2Z.inj_mul, Z.even_mul. reflexivity. Qed.

Lemma fits_L : fmt_fits 1 2 rate L.
Proof. unfold fmt_fits. lia. Qed.

Lemma audiofile_enter_pcm : audiofile_enter (mk_bytesio B 0) = (Ok (wrq 0 0), mk_bytesio B 44).
Proof.
  unfold audiofile_enter. rewrite initfp_wav; [| lia | lia | apply fits_L | apply even_L].
  cbn -[Z.div]. unfold py_truediv.
  replace (rate =? 0)%Z with false by (symmetry; apply Z.eqb_neq; lia). reflexivity.
Qed.

Lemma drop_B (q : nat) : drop (44 + q) B = drop q pcm.
Proof. rewrite <- (length_wav_header 1 2 rate L), <- drop_drop, drop_app_length. reflexivity. Qed.

(** One [readframes(4096)] in the middle of the data: [min(8192, rest)]
    bytes come back. *)
Lemma readframes_more (q : nat) (sp : Z) :
  q < length pcm ->
  let m := Z.to_nat (Z.min 8192 (L - Z.of_nat q)) in
  exists sp', readframes CHUNK (wrq (Z.of_nat q) sp, mk_bytesio B (44 + q))
  = (Ok (take m (drop q pcm)), (wrq (Z.of_nat (q + m)) sp', mk_bytesio B (44 + q + m))).
Proof.
  intros Hq m.
  assert (Hm : Z.of_nat m = Z.min 8192 (L - Z.of_nat q)) by (unfold m; lia).
  rewrite Nat2Z.inj_add. eexists.
  unfold readframes, sbind, get_r, sret, on_data. cbn -[ck_read Z.mul Z.div Z.of_nat].
  change (CHUNK * (1 * 2))%Z with 8192%Z.
  rewrite (ck_read_clip (dchunk (Z.of_nat q)) _
             (riffc (36 + (Z.of_nat q + Z.of_nat m)), mk_bytesio B (44 + q + m))
             _ (take m (drop q pcm))); cbn [ck_size ck_size_read].
  - rewrite <- Hm. unfold py_floordiv. cbn -[Z.div Z.of_nat take drop]. reflexivity.
  - lia.
  - lia.
  - apply even_L.
  - rewrite <- Hm.
    replace (36 + (Z.of_nat q + Z.of_nat m))%Z with (36 + Z.of_nat q + Z.of_nat m)%Z by lia.
    apply (ck_read_step (riffc (36 + Z.of_nat q))); cbn [ck_size ck_size_read]; try lia.
    + rewrite Z.even_add, even_L. reflexivity.
    + apply bio_read_eq; [rewrite length_app, length_wav_header; lia | ].
      rewrite drop_B. reflexivity.
    + rewrite length_take, length_drop. lia.
  - rewrite length_take, length_drop. lia.
Qed.

(** At the end of the data [readframes] returns an empty buffer. *)
Lemma readframes_end (sp : Z) :
  exists sp', readframes CHUNK (wrq L sp, mk_bytesio B (44 + length pcm))
  = (Ok [], (wrq L sp', mk_bytesio B (44 + length pcm))).
Proof.
  eexists. unfold readframes, sbind, get_r, sret, on_data. cbn -[ck_read Z.mul Z.div Z.of_nat].
  rewrite ck_read_end by (cbn; lia). unfold py_floordiv. cbn -[Z.div Z.of_nat].
  reflexivity.
Qed.

Lemma stream_read_mono (s : wave_read * bytesio) (b : bytes) (w : wave_read) (f : bytesio) :
  readframes CHUNK s = (Ok b, (w, f)) -> getnchannels w = 1%Z ->
  stream_read CHUNK s = (Ok b, (w, f)).
Proof.
  intros H1 H2. unfold stream_read. erewrite sbind_ok by exact H1.
  unfold sbind, get_r. cbn [fst]. rewrite H2. reflexivity.
Qed.

(** [record]'s loop, from offset [q] of the data, returns the rest of
    the PCM bytes. *)
Lemma record_loop_pcm (fuel q : nat) (sp : Z) (acc : bytes) :
  q <= length pcm -> length pcm - q < fuel ->
  exists st', record_loop fuel acc (wrq (Z.of_nat q) sp, mk_bytesio B (44 + q))
              = (Ok (acc ++ drop q pcm), st').
Proof.
  revert q sp acc; induction fuel as [|fuel IH]; intros q sp acc Hq Hf; [lia|].
  cbn [record_loop]. destruct (Nat.eq_dec q (length pcm)) as [->|Hne].
  - destruct (readframes_end sp) as [sp' Hrd].
    erewrite sbind_ok by (apply (stream_read_mono _ _ _ _ Hrd); reflexivity).
    rewrite drop_ge, app_nil_r by lia. eexists. reflexivity.
  - destruct (readframes_more q sp ltac:(lia)) as [sp' Hrd].
    set (m := Z.to_nat (Z.min 8192 (L - Z.of_nat q))) in Hrd.
    assert (Hm : 1 <= m <= length pcm - q) by (unfold m; lia).
    erewrite sbind_ok by (apply (stream_read_mono _ _ _ _ Hrd); reflexivity).
    replace (length (take m (drop q pcm)) =? 0) with false
      by (symmetry; apply Nat.eqb_neq; rewrite length_take, length_drop; lia).
    rewrite <- Nat.add_assoc.
    destruct (IH (q + m) sp' (acc ++ take m (drop q pcm)) ltac:(lia) ltac:(lia)) as [st' Hst].
    exists st'. rewrite Hst, <- app_assoc, <- drop_drop, take_drop. reflexivity.
Qed.

(** Recording the rewound file gives back exactly the PCM bytes, with the
    rate and the 2-byte sample width of the header. *)
Lemma record_audio_pcm :
  exists f', record_audio (mk_bytesio B 0) = (Ok (mk_audio pcm rate 2), f').
Proof.
  unfold record_audio. rewrite audiofile_enter_pcm.
  change (mk_wr (riffc (36 + 0)) fmt (dchunk 0) (L / (1 * 2)) 0 false)
    with (wrq (Z.of_nat 0) 0%Z).
  change (mk_bytesio B 44) with (mk_bytesio B (44 + 0)).
  destruct (record_loop_pcm (S (length (bio_buf (mk_bytesio B (44 + 0))))) 0 0 []
              ltac:(lia) ltac:(cbn [bio_buf]; rewrite length_app; lia)) as [[w2 f2] Hst].
  rewrite Hst. exists f2. reflexivity.
Qed.
End RecordPcm.

(** ** Theorems *)

(** C6. Encoding and then recording is lossless: for non-empty PCM data of
    even length that fits the header, [pcm_to_wav] at 48000 Hz succeeds,
    and [sr.AudioFile] with [record] on the container it returns gives an
    [AudioData] whose frames are exactly the received bytes, at 48000 Hz
    and 2 bytes per sample. *)
Theorem record_audio_roundtrip (pcm_data : bytes) :
  length pcm_data <> 0 -> Nat.even (length pcm_data) = true ->
  (36 + Z.of_nat (length pcm_data) <= 4294967295)%Z ->
  exists f f', pcm_to_wav pcm_data DEFAULT_SAMPLE_RATE = Ok f
               /\ record_audio f = (Ok (mk_audio pcm_data DEFAULT_SAMPLE_RATE 2), f').
Proof.
  intros Hne He Hl.
  destruct (record_audio_pcm DEFAULT_SAMPLE_RATE pcm_data He) as [f' Hf'];
    try (unfold DEFAULT_SAMPLE_RATE; lia).
  exists (mk_bytesio (wav_header 1 2 DEFAULT_SAMPLE_RATE (Z.of_nat (length pcm_data)) ++ pcm_data) 0), f'.
  split; [|exact Hf'].
  apply pcm_to_wav_ok; try assumption. unfold header_fits, DEFAULT_SAMPLE_RATE. lia.
Qed.


(** ** Witnesses *)

Lemma record_audio_roundtrip_witness :
  length [Byte.x01; Byte.x02; Byte.x03; Byte.x04] <> 0
  /\ exists f f', pcm_to_wav [Byte.x01; Byte.x02; Byte.x03; Byte.x04] DEFAULT_SAMPLE_RATE = Ok f
       /\ record_audio f = (Ok (mk_audio [Byte.x01; Byte.x02; Byte.x03; Byte.x04] DEFAULT_SAMPLE_RATE 2), f').
Proof.
  split; [discriminate |].
  apply record_audio_roundtrip; [discriminate | reflexivity | cbn; lia].
Defined.

End Gateway.
