(* ===== verification/Handler.v ===== *)
(** * The two HTTP front ends: [speech_to_text] of gstt_flask.py and of
    gstt_fastapi_rest.py.

    Both run the same pipeline on the request body: the empty check,
    [pcm_to_wav], [debug_wav_info] and the 0.3 s check, [sr.AudioFile] and
    [record], and one call to the recognizer with language 'ko-KR'.  The
    Flask handler returns [(jsonify(...), status)] at each failure; the
    FastAPI handler raises [HTTPException], inside the [try] whose
    [except Exception] turns every exception, its own [HTTPException]s
    included, into a 500.  A handler's result is its response and the list
    of recognizer calls it made. *)

From Stdlib Require Import ZArith QArith String.
From stdpp Require Import base list decidable.
From S2P Require Import Prelude Binary64 Struct BytesIO WaveWrite PcmToWav Chunk WaveRead Validator Gateway.
Import Binary64 PyStruct BytesIO WaveWrite PcmToWav Chunk WaveRead Validator Gateway.

Module Handler.

(** The JSON body of a response: [{"text": t}], Flask's
    [{"error": .., "details": ..}], and FastAPI's [{"detail": ..}] for an
    [HTTPException]. *)
Inductive json_body : Type :=
  | JText (text : string)
  | JError (d : http_detail)
  | JDetail (d : http_detail).

Record response : Type := mk_resp { status : Z; body : json_body }.

(** One call of the recognizer: the audio and the language tag. *)
Definition call : Type := (audio_data * string)%type.

Definition LANGUAGE : string := "ko-KR"%string.

Section WithProvider.
Context `{SttProvider}.

(** The recognizer step of both handlers, before the front end renders
    it: [Ok text], or the exception that escapes the inner [try]. *)
Definition transcribe (audio : audio_data) : pyres string :=
  recognize_google audio LANGUAGE.

(** Flask: [except Exception as e] at the outer level. *)
Definition flask_internal (e : py_exc) : response :=
  mk_resp 500 (JError (DErr MsgInternal (DetExc e))).

(** Flask: the [try: text = recognizer.recognize_google(...)] block and
    the success return. *)
Definition flask_recognize (audio : audio_data) : response * list call :=
  let calls := [(audio, LANGUAGE)] in
  match transcribe audio with
  | Ok text => (mk_resp 200 (JText text), calls)
  | Exc SrUnknownValueError => (mk_resp 400 (JError (DMsg MsgNoSpeech)), calls)
  | Exc (SrRequestError d) => (mk_resp 500 (JError (DErr MsgSttServer (DetStr d))), calls)
  | Exc e => (flask_internal e, calls)
  end.

Definition flask_stt (pcm_data : bytes) : response * list call :=
  if length pcm_data =? 0 then (mk_resp 400 (JError (DMsg MsgNoAudio)), []) else
  match pcm_to_wav pcm_data DEFAULT_SAMPLE_RATE with
  | Exc (ValueError m) => (mk_resp 400 (JError (DMsg (MsgOfExc (ValueError m)))), [])
  | Exc e => (flask_internal e, [])
  | Ok wav_file =>
      match debug_wav_info wav_file with
      | (Exc e, _) => (flask_internal e, [])
      | (Ok duration, wav_file1) =>
          if too_short duration then
            (mk_resp 400 (JError (DMsg (MsgTooShort duration))), [])
          else
            match seek 0 0 wav_file1 with
            | Exc e => (flask_internal e, [])
            | Ok wav_file2 =>
                match record_audio wav_file2 with
                | (Exc e, _) => (flask_internal e, [])
                | (Ok audio, _) => flask_recognize audio
                end
            end
      end
  end.

(** FastAPI: the [try: text = recognizer.recognize_google(...)] block
    and the success return, inside the outer [try]. *)
Definition fastapi_recognize (audio : audio_data) : pyres response * list call :=
  let calls := [(audio, LANGUAGE)] in
  match transcribe audio with
  | Ok text => (Ok (mk_resp 200 (JText text)), calls)
  | Exc SrUnknownValueError => (Exc (HTTPException 400 (DMsg MsgNoSpeech)), calls)
  | Exc (SrRequestError d) =>
      (Exc (HTTPException 500 (DErr MsgSttServer (DetStr d))), calls)
  | Exc e => (Exc e, calls)
  end.

(** FastAPI: the body of the outer [try], which returns the response or
    raises. *)
Definition fastapi_body (pcm_data : bytes) : pyres response * list call :=
  if length pcm_data =? 0 then (Exc (HTTPException 400 (DMsg MsgNoAudio)), []) else
  match pcm_to_wav pcm_data DEFAULT_SAMPLE_RATE with
  | Exc (ValueError m) => (Exc (HTTPException 400 (DMsg (MsgOfExc (ValueError m)))), [])
  | Exc e => (Exc e, [])
  | Ok wav_file =>
      match debug_wav_info wav_file with
      | (Exc e, _) => (Exc e, [])
      | (Ok duration, wav_file1) =>
          if too_short duration then
            (Exc (HTTPException 400 (DMsg (MsgTooShort duration))), [])
          else
            match seek 0 0 wav_file1 with
            | Exc e => (Exc e, [])
            | Ok wav_file2 =>
                match record_audio wav_file2 with
                | (Exc e, _) => (Exc e, [])
                | (Ok audio, _) => fastapi_recognize audio
                end
            end
      end
  end.

(** [except Exception as e: raise HTTPException(500, {...})], rendered
    by FastAPI as the status and [{"detail": ...}]. *)
Definition fastapi_stt (pcm_data : bytes) : response * list call :=
  let '(r, calls) := fastapi_body pcm_data in
  match r with
  | Ok resp => (resp, calls)
  | Exc e => (mk_resp 500 (JDetail (DErr MsgInternal (DetExc e))), calls)
  end.
End WithProvider.

(** A recognizer that gives the same answer to every request: a stand-in
    for the external service when a handler is run on a concrete body. *)
Definition fixed_provider (answer : pyres string) : SttProvider :=
  {| recognize_google _ _ := answer |}.

(** ** The pipeline on valid input *)

Abbreviation wav_of pcm_data :=
  (wav_header 1 2 DEFAULT_SAMPLE_RATE (Z.of_nat (length pcm_data)) ++ pcm_data).

(** What the recognizer receives: the PCM bytes, the default rate and
    16-bit samples. *)
Definition audio_of (pcm_data : bytes) : audio_data := mk_audio pcm_data DEFAULT_SAMPLE_RATE 2.

(** The duration [debug_wav_info] computes: [frames / float(48000)]. *)
Definition duration_of (pcm_data : bytes) : Q :=
  fl_div (Z.of_nat (length pcm_data) / 2) DEFAULT_SAMPLE_RATE.

(** A body of 28800 zero bytes: 0.3 s of silence at 48000 Hz. *)
Abbreviation speech := (repeat Byte.x00 28800).

Section Pipeline.
Context (pcm_data : bytes).
Hypothesis Hne : length pcm_data <> 0.
Hypothesis He : Nat.even (length pcm_data) = true.
Hypothesis Hl : (36 + Z.of_nat (length pcm_data) <= 4294967295)%Z.

Lemma pipeline_wav : pcm_to_wav pcm_data DEFAULT_SAMPLE_RATE = Ok (mk_bytesio (wav_of pcm_data) 0).
Proof. apply pcm_to_wav_ok; try assumption. unfold header_fits, DEFAULT_SAMPLE_RATE. lia. Qed.

Lemma pipeline_duration :
  debug_wav_info (mk_bytesio (wav_of pcm_data) 0)
  = (Ok (duration_of pcm_data), mk_bytesio (wav_of pcm_data) 44).
Proof. apply debug_wav_info_pcm; try assumption; unfold DEFAULT_SAMPLE_RATE; lia. Qed.

Lemma pipeline_record :
  exists f', record_audio (mk_bytesio (wav_of pcm_data) 0) = (Ok (audio_of pcm_data), f').
Proof. apply record_audio_pcm; try assumption; unfold DEFAULT_SAMPLE_RATE; lia. Qed.
End Pipeline.

Lemma too_short_duration_of (pcm_data : bytes) :
  too_short (duration_of pcm_data) = (Z.of_nat (length pcm_data) / 2 <? 14400)%Z.
Proof. apply too_short_48k. Qed.

(** ** Every path of the two handlers *)

(** Case analysis on the recognizer's answer. *)
Ltac split_answer :=
  unfold flask_recognize, fastapi_recognize; destruct (transcribe _) as [?|[]].

Section Paths.
Context `{SttProvider}.

(** The checks of [speech_to_text] in order, on the pipeline lemmas. *)
Local Ltac handler_paths :=
  match goal with |- _ = if length ?p =? 0 then _ else _ =>
  destruct (length p =? 0) eqn:E0; [reflexivity|];
  rewrite pcm_to_wav_cases by (unfold DEFAULT_SAMPLE_RATE; lia); rewrite E0;
  destruct (Nat.odd _) eqn:Eo; [reflexivity|];
  destruct (Z.ltb_spec 4294967295 (36 + Z.of_nat (length p))); [reflexivity|];
  apply Nat.eqb_neq in E0;
  assert (He : Nat.even (length p) = true) by (rewrite <- Nat.negb_odd, Eo; reflexivity);
  rewrite pipeline_duration by assumption;
  destruct (too_short _); [reflexivity|];
  rewrite seek_0; destruct (pipeline_record p) as [f' Hr]; try assumption;
  cbn [bio_buf]; rewrite Hr; reflexivity
  end.

(** The Flask handler on every body, by the checks it makes in order. *)
Lemma flask_cases (pcm_data : bytes) :
  flask_stt pcm_data =
    if length pcm_data =? 0 then (mk_resp 400 (JError (DMsg MsgNoAudio)), [])
    else if Nat.odd (length pcm_data) then
      (mk_resp 400 (JError (DMsg (MsgOfExc (ValueError (WavConversionFailed
         (ValueError (PcmConversionFailed StructError))))))), [])
    else if (4294967295 <? 36 + Z.of_nat (length pcm_data))%Z then
      (mk_resp 400 (JError (DMsg (MsgOfExc (ValueError (WavConversionFailed StructError))))), [])
    else if too_short (duration_of pcm_data) then
      (mk_resp 400 (JError (DMsg (MsgTooShort (duration_of pcm_data)))), [])
    else flask_recognize (audio_of pcm_data).
Proof. unfold flask_stt. handler_paths.
Qed.

(** The body of the FastAPI handler on every input. *)
Lemma fastapi_body_cases (pcm_data : bytes) :
  fastapi_body pcm_data =
    if length pcm_data =? 0 then (Exc (HTTPException 400 (DMsg MsgNoAudio)), [])
    else if Nat.odd (length pcm_data) then
      (Exc (HTTPException 400 (DMsg (MsgOfExc (ValueError (WavConversionFailed
         (ValueError (PcmConversionFailed StructError))))))), [])
    else if (4294967295 <? 36 + Z.of_nat (length pcm_data))%Z then
      (Exc (HTTPException 400 (DMsg (MsgOfExc (ValueError (WavConversionFailed StructError))))), [])
    else if too_short (duration_of pcm_data) then
      (Exc (HTTPException 400 (DMsg (MsgTooShort (duration_of pcm_data)))), [])
    else fastapi_recognize (audio_of pcm_data).
Proof. unfold fastapi_body. handler_paths.
Qed.

(** A body that passes every check reaches the recognizer. *)
Lemma valid_checks (pcm_data : bytes) :
  Nat.even (length pcm_data) = true -> (28800 <= Z.of_nat (length pcm_data))%Z ->
  (36 + Z.of_nat (length pcm_data) <= 4294967295)%Z ->
  (length pcm_data =? 0) = false /\ Nat.odd (length pcm_data) = false
  /\ (4294967295 <? 36 + Z.of_nat (length pcm_data))%Z = false
  /\ too_short (duration_of pcm_data) = false.
Proof.
  intros He Hn Hl. rewrite too_short_duration_of, <- Nat.negb_even, He.
  split; [apply Nat.eqb_neq; lia|]. split; [reflexivity|].
  split; apply Z.ltb_ge; Z.div_mod_to_equations; lia.
Qed.

Lemma flask_valid (pcm_data : bytes) :
  Nat.even (length pcm_data) = true -> (28800 <= Z.of_nat (length pcm_data))%Z ->
  (36 + Z.of_nat (length pcm_data) <= 4294967295)%Z ->
  flask_stt pcm_data = flask_recognize (audio_of pcm_data).
Proof.
  intros He Hn Hl. destruct (valid_checks pcm_data) as (E0 & Eo & Ev & Es); try assumption.
  rewrite flask_cases, E0, Eo, Ev, Es. reflexivity.
Qed.
End Paths.

(** ** Theorems *)

Section Claims.
Context `{SttProvider}.



(** C3. Flask, too short: a non-empty body of even length below 28800
    bytes (fewer than 14400 frames, under 0.3 s at 48000 Hz) is refused
    with status 400 and the 'too short' message carrying the duration
    [frames / 48000.0] (the binary64 quotient); the recognizer is not
    called. *)
Theorem flask_too_short (pcm_data : bytes) :
  Nat.even (length pcm_data) = true -> (0 < Z.of_nat (length pcm_data) < 28800)%Z ->
  flask_stt pcm_data
  = (mk_resp 400 (JError (DMsg (MsgTooShort
       (fl_div (Z.of_nat (length pcm_data) / 2) 48000)))), []).
Proof.
  intros He Hn. rewrite flask_cases, too_short_duration_of, <- Nat.negb_even, He.
  replace (length pcm_data =? 0) with false by (symmetry; apply Nat.eqb_neq; lia).
  replace (4294967295 <? 36 + Z.of_nat (length pcm_data))%Z with false
    by (symmetry; apply Z.ltb_ge; lia).
  replace (Z.of_nat (length pcm_data) / 2 <? 14400)%Z with true
    by (symmetry; apply Z.ltb_lt; Z.div_mod_to_equations; lia).
  reflexivity.
Qed.

(** C4. Flask, no speech: when the recognizer raises
    [UnknownValueError] on valid audio the answer is status 400 with
    the 'could not understand' message, after exactly one call. *)
Theorem flask_no_speech (pcm_data : bytes) :
  Nat.even (length pcm_data) = true -> (28800 <= Z.of_nat (length pcm_data))%Z ->
  (36 + Z.of_nat (length pcm_data) <= 4294967295)%Z ->
  recognize_google (audio_of pcm_data) LANGUAGE = Exc SrUnknownValueError ->
  flask_stt pcm_data
  = (mk_resp 400 (JError (DMsg MsgNoSpeech)), [(audio_of pcm_data, LANGUAGE)]).
Proof.
  intros He Hn Hl Ht. rewrite flask_valid by assumption.
  unfold flask_recognize, transcribe. rewrite Ht. reflexivity.
Qed.

(** C5. Flask, provider unavailable: when the recognizer raises
    [RequestError(d)] on valid audio the answer is status 500 with the
    'STT server error' message and [str(d)] as details, after exactly
    one call. *)
Theorem flask_provider_unavailable (pcm_data : bytes) (d : string) :
  Nat.even (length pcm_data) = true -> (28800 <= Z.of_nat (length pcm_data))%Z ->
  (36 + Z.of_nat (length pcm_data) <= 4294967295)%Z ->
  recognize_google (audio_of pcm_data) LANGUAGE = Exc (SrRequestError d) ->
  flask_stt pcm_data
  = (mk_resp 500 (JError (DErr MsgSttServer (DetStr d))), [(audio_of pcm_data, LANGUAGE)]).
Proof.
  intros He Hn Hl Ht. rewrite flask_valid by assumption.
  unfold flask_recognize, transcribe. rewrite Ht. reflexivity.
Qed.


(** C15. The two front ends call the recognizer on the same inputs:
    for every body the list of calls is the same. *)
Theorem flask_fastapi_same_calls (pcm_data : bytes) :
  snd (flask_stt pcm_data) = snd (fastapi_stt pcm_data).
Proof.
  unfold fastapi_stt. rewrite flask_cases, fastapi_body_cases.
  destruct_ifs; try reflexivity. split_answer; reflexivity.
Qed.

(** C16. Where the Flask handler answers 200, the FastAPI handler gives
    the same response (status 200 and the same text). *)
Theorem flask_fastapi_success_agree (pcm_data : bytes) :
  status (fst (flask_stt pcm_data)) = 200%Z -> fastapi_stt pcm_data = flask_stt pcm_data.
Proof.
  unfold fastapi_stt. rewrite flask_cases, fastapi_body_cases.
  destruct_ifs; try (intros Hs; discriminate Hs).
  split_answer; intros Hs; cbn in Hs; first [discriminate Hs | reflexivity].
Qed.
End Claims.


(** ** Witnesses *)


Local Ltac len_facts :=
  rewrite ?repeat_length; first [reflexivity | vm_compute; congruence | cbn; lia].


Lemma flask_too_short_witness :
  (0 < Z.of_nat (length (repeat Byte.x00 4)) < 28800)%Z
  /\ @flask_stt (fixed_provider (Ok "hello"%string)) (repeat Byte.x00 4)
     = (mk_resp 400 (JError (DMsg (MsgTooShort (fl_div (4 / 2) 48000)))), []).
Proof.
  split; [cbn; lia |].
  apply (@flask_too_short (fixed_provider (Ok "hello"%string))); [reflexivity | cbn; lia].
Defined.

Lemma flask_no_speech_witness :
  (28800 <= Z.of_nat (length speech))%Z
  /\ @flask_stt (fixed_provider (Exc SrUnknownValueError)) speech
     = (mk_resp 400 (JError (DMsg MsgNoSpeech)), [(audio_of speech, LANGUAGE)]).
Proof.
  split; [len_facts |].
  apply (@flask_no_speech (fixed_provider (Exc SrUnknownValueError)));
    [len_facts | len_facts | len_facts | reflexivity].
Defined.

Lemma flask_provider_unavailable_witness :
  (28800 <= Z.of_nat (length speech))%Z
  /\ @flask_stt (fixed_provider (Exc (SrRequestError "quota exceeded"))) speech
     = (mk_resp 500 (JError (DErr MsgSttServer (DetStr "quota exceeded"))),
        [(audio_of speech, LANGUAGE)]).
Proof.
  split; [len_facts |].
  apply (@flask_provider_unavailable (fixed_provider (Exc (SrRequestError "quota exceeded"))));
    [len_facts | len_facts | len_facts | reflexivity].
Defined.


Lemma flask_fastapi_success_agree_witness :
  status (fst (@flask_stt (fixed_provider (Ok "hello"%string)) speech)) = 200%Z
  /\ @fastapi_stt (fixed_provider (Ok "hello"%string)) speech
     = @flask_stt (fixed_provider (Ok "hello"%string)) speech.
Proof.
  assert (Hs : status (fst (@flask_stt (fixed_provider (Ok "hello"%string)) speech)) = 200%Z)
    by (rewrite flask_valid by len_facts; reflexivity).
  split; [exact Hs | apply flask_fastapi_success_agree, Hs].
Defined.
End Handler.
