(* ===== verification/Refinement.v ===== *)
(** * The contract of the request pipeline and the refinement theorems.

    The error taxonomy of the specification (kind, cause, HTTP status) and
    the pipeline it describes: decode, encode, validate against 0.3 s at
    48000 Hz, then one call to the provider, whose three answers are
    text, no speech and service failure.  [spec_pipeline] gives, for each
    body and provider, the outcome and the calls made; [renders] says when
    an HTTP response realises an outcome: 200 with the text, or the status
    of the error kind with an [error] field.  The Flask handler refines the
    contract on every body; the FastAPI handler answers 500 for every
    failure. *)

From Stdlib Require Import ZArith QArith String.
From stdpp Require Import base list decidable.
From S2P Require Import Prelude Binary64 Struct BytesIO WaveWrite PcmToWav Chunk WaveRead Validator Gateway Handler.
Import Binary64 PyStruct BytesIO WaveWrite PcmToWav Chunk WaveRead Validator Gateway Handler.

Module Refinement.

(** The error kinds of the taxonomy. *)
Inductive error_kind : Type :=
  | EmptyInputError
  | MalformedSampleError
  | EncodingError
  | AudioTooShortError
  | NoSpeechRecognizedError
  | ProviderUnavailableError
  | InternalError.

(** The default HTTP status of each kind: 400 for what the caller can
    correct, 500 for provider and internal faults. *)
Definition error_status (k : error_kind) : Z :=
  match k with
  | ProviderUnavailableError | InternalError => 500
  | _ => 400
  end.

Inductive outcome : Type :=
  | Transcribed (text : string)
  | Failed (k : error_kind).

(** A response realises an outcome: the text with 200, or the kind's
    status with a JSON object that has an [error] field. *)
Definition renders (o : outcome) (r : response) : Prop :=
  match o with
  | Transcribed t => r = mk_resp 200 (JText t)
  | Failed k => status r = error_status k /\ exists d, body r = JError d
  end.

Section Contract.
Context `{SttProvider}.

(** The pipeline on a body: each stage fails fast, and the provider is
    called once, only on audio that passed every check. *)
Definition spec_pipeline (pcm : bytes) : outcome * list call :=
  let n := Z.of_nat (length pcm) in
  if (n =? 0)%Z then (Failed EmptyInputError, [])
  else if Z.odd n then (Failed MalformedSampleError, [])
  else if (4294967295 <? 36 + n)%Z then (Failed EncodingError, [])
  else if (n / 2 <? 14400)%Z then (Failed AudioTooShortError, [])
  else
    let audio := mk_audio pcm 48000 2 in
    (match recognize_google audio "ko-KR"%string with
     | Ok t => Transcribed t
     | Exc SrUnknownValueError => Failed NoSpeechRecognizedError
     | Exc (SrRequestError _) => Failed ProviderUnavailableError
     | Exc _ => Failed InternalError
     end, [(audio, "ko-KR"%string)]).
End Contract.

(** ** Lemmas *)

Lemma length_checks (pcm : bytes) :
  (length pcm =? 0) = (Z.of_nat (length pcm) =? 0)%Z
  /\ Nat.odd (length pcm) = Z.odd (Z.of_nat (length pcm)).
Proof.
  split.
  - destruct (length pcm =? 0) eqn:E; symmetry;
      [apply Nat.eqb_eq in E; apply Z.eqb_eq | apply Nat.eqb_neq in E; apply Z.eqb_neq]; lia.
  - rewrite <- Z.negb_even, <- Nat.negb_even. f_equal.
    destruct (Nat.even (length pcm)) eqn:E; symmetry.
    + apply Nat.even_spec in E as [m Hm]. apply Z.even_spec. exists (Z.of_nat m). lia.
    + rewrite <- Nat.negb_odd in E. apply negb_false_iff, Nat.odd_spec in E as [m Hm].
      rewrite <- Z.negb_odd. apply negb_false_iff, Z.odd_spec. exists (Z.of_nat m). lia.
Qed.

(** The body's checks, in the terms of the contract. *)
Lemma flask_checks `{SttProvider} (pcm : bytes) :
  flask_stt pcm =
    let n := Z.of_nat (length pcm) in
    if (n =? 0)%Z then (mk_resp 400 (JError (DMsg MsgNoAudio)), [])
    else if Z.odd n then
      (mk_resp 400 (JError (DMsg (MsgOfExc (ValueError (WavConversionFailed
         (ValueError (PcmConversionFailed StructError))))))), [])
    else if (4294967295 <? 36 + n)%Z then
      (mk_resp 400 (JError (DMsg (MsgOfExc (ValueError (WavConversionFailed StructError))))), [])
    else if (n / 2 <? 14400)%Z then
      (mk_resp 400 (JError (DMsg (MsgTooShort (duration_of pcm)))), [])
    else flask_recognize (audio_of pcm).
Proof.
  destruct (length_checks pcm) as [E0 Eo].
  rewrite flask_cases, E0, Eo, too_short_duration_of. reflexivity.
Qed.

Lemma fastapi_checks `{SttProvider} (pcm : bytes) :
  fastapi_body pcm =
    let n := Z.of_nat (length pcm) in
    if (n =? 0)%Z then (Exc (HTTPException 400 (DMsg MsgNoAudio)), [])
    else if Z.odd n then
      (Exc (HTTPException 400 (DMsg (MsgOfExc (ValueError (WavConversionFailed
         (ValueError (PcmConversionFailed StructError))))))), [])
    else if (4294967295 <? 36 + n)%Z then
      (Exc (HTTPException 400 (DMsg (MsgOfExc (ValueError (WavConversionFailed StructError))))), [])
    else if (n / 2 <? 14400)%Z then
      (Exc (HTTPException 400 (DMsg (MsgTooShort (duration_of pcm)))), [])
    else fastapi_recognize (audio_of pcm).
Proof.
  destruct (length_checks pcm) as [E0 Eo].
  rewrite fastapi_body_cases, E0, Eo, too_short_duration_of. reflexivity.
Qed.

(** ** Theorems *)

Section Claims.
Context `{SttProvider}.

(** C1. The Flask handler implements the contract on every body and
    for every provider: its response realises the outcome of the
    pipeline (200 with the text, or the status of the error kind with
    an [error] field), and it calls the provider exactly as the
    pipeline does: once, with the received bytes at 48000 Hz, 16-bit,
    'ko-KR', and only when every check passed. *)
Theorem flask_refines_spec (pcm : bytes) :
  renders (fst (spec_pipeline pcm)) (fst (flask_stt pcm))
  /\ snd (flask_stt pcm) = snd (spec_pipeline pcm).
Proof.
  rewrite flask_checks. unfold spec_pipeline. cbv zeta.
  destruct_ifs; try (split; [split; [reflexivity | eexists; reflexivity] | reflexivity]).
  unfold flask_recognize, transcribe.
  destruct (recognize_google _ _) as [t|[]];
    first [ split; reflexivity
          | split; [split; [reflexivity | eexists; reflexivity] | reflexivity] ].
Qed.

(** C2. The FastAPI handler answers every failure of the contract with
    500 and a [{"detail": ...}] body: its own [HTTPException]s, 400s
    included, are caught by [except Exception] and re-raised as the
    internal error, so no input gets the 400 of the taxonomy. *)
Theorem fastapi_failures_500 (pcm : bytes) (k : error_kind) :
  fst (spec_pipeline pcm) = Failed k ->
  status (fst (fastapi_stt pcm)) = 500%Z
  /\ exists e, body (fst (fastapi_stt pcm)) = JDetail (DErr MsgInternal (DetExc e)).
Proof.
  unfold fastapi_stt. rewrite fastapi_checks. unfold spec_pipeline. cbv zeta.
  destruct_ifs; try (intros _; split; [reflexivity | eexists; reflexivity]).
  unfold fastapi_recognize, transcribe.
  destruct (recognize_google _ _) as [t|[]]; cbn; intros Hk;
    first [ discriminate Hk | split; [reflexivity | eexists; reflexivity] ].
Qed.
End Claims.


(** ** Witnesses *)

Lemma fastapi_failures_500_witness :
  fst (@spec_pipeline (fixed_provider (Ok "hello"%string)) []) = Failed EmptyInputError
  /\ status (fst (@fastapi_stt (fixed_provider (Ok "hello"%string)) [])) = 500%Z
  /\ exists e, body (fst (@fastapi_stt (fixed_provider (Ok "hello"%string)) []))
               = JDetail (DErr MsgInternal (DetExc e)).
Proof.
  split; [reflexivity |].
  apply (@fastapi_failures_500 (fixed_provider (Ok "hello"%string)) [] EmptyInputError).
  reflexivity.
Defined.

End Refinement.
